(** * txrest: a shallow embedding of the request-dispatch engine

    The package is Python 2 code (see setup.py).  A Python 2 [str] is a byte
    string, modelled as a Rocq [string] (a list of 8-bit [ascii] characters).
    Python exceptions are the constructors of [exn]; fallible code returns
    [py A]; code that mutates the Twisted request runs in the state and
    exception monad [M] over [req_state]. *)

From Stdlib Require Import String Ascii List Bool ZArith Lia.
Import ListNotations.
Open Scope string_scope.
Set Warnings "-register-all".

(* ------------------------------------------------------------------------- *)
(** ** Python 2 byte strings *)

Definition pystr := string.

Definition chr (n : nat) : ascii := ascii_of_nat n.
Definition NL : pystr := String (chr 10) EmptyString.
Definition QUOTE : pystr := String (chr 34) EmptyString.

(** [str.isspace] on one byte in Python 2: space, \t, \n, \v, \f, \r. *)
Definition is_space (c : ascii) : bool :=
  let n := nat_of_ascii c in Nat.eqb n 32 || (Nat.leb 9 n && Nat.leb n 13).

(** [str.lstrip()] *)
Fixpoint lstrip (s : pystr) : pystr :=
  match s with
  | EmptyString => EmptyString
  | String c s' => if is_space c then lstrip s' else s
  end.

(** [s[:n]] *)
Definition slice_to (n : nat) (s : pystr) : pystr := substring 0 n s.

(** A byte below 0x80. *)
Definition is_ascii_byte (c : ascii) : bool := Nat.ltb (nat_of_ascii c) 128.

Fixpoint all_ascii (s : pystr) : bool :=
  match s with
  | EmptyString => true
  | String c s' => is_ascii_byte c && all_ascii s'
  end.

(** Position of the first byte above 0x7f, if any. *)
Fixpoint first_non_ascii (i : nat) (s : pystr) : option nat :=
  match s with
  | EmptyString => None
  | String c s' => if is_ascii_byte c then first_non_ascii (S i) s' else Some i
  end.

(** Decimal digits of a natural number ([str(n)]). *)
Fixpoint digits_aux (fuel n : nat) (acc : pystr) : pystr :=
  match fuel with
  | O => acc
  | S f =>
      let acc' := String (chr (48 + n mod 10)) acc in
      if Nat.ltb n 10 then acc' else digits_aux f (n / 10) acc'
  end.

Definition nat_repr (n : nat) : pystr := digits_aux (S n) n EmptyString.

(** [str(z)] / [repr(z)] for a Python [int]. *)
Definition z_repr (z : Z) : pystr :=
  match z with
  | Z.neg _ => "-" ++ nat_repr (Z.to_nat (Z.abs z))
  | _ => nat_repr (Z.to_nat z)
  end.

(** Hexadecimal digit, lower case. *)
Definition hex_digit (n : nat) : ascii :=
  if Nat.ltb n 10 then chr (48 + n) else chr (87 + n).

(* ------------------------------------------------------------------------- *)
(** ** Python values and exceptions *)

(** A float: its [repr] when finite, or one of the non-finite values. *)
Inductive pyfloat :=
| FFinite (r : pystr)
| FNaN
| FInf
| FNegInf.

(** An ElementTree node: tag, text, children and tail. *)
Inductive element :=
| Elem (tag : pystr) (text : option pystr) (children : list element)
       (tail : option pystr).

(** Python values as handlers produce them.  [PObj i] is a reference to
    object [i] of the heap (a Twisted resource, for instance). *)
Inductive pyval :=
| PNone
| PBool (b : bool)
| PInt (z : Z)
| PFloat (f : pyfloat)
| PStr (s : pystr)
| PList (l : list pyval)
| PTuple (l : list pyval)
| PDict (items : list (pyval * pyval))   (* in the dict's iteration order *)
| PElement (e : element)
| PObj (id : nat).

Inductive exn :=
| ValueError (msg : pystr)
| IndexError (msg : pystr)
| TypeError (msg : pystr)
| NameError (msg : pystr)
| UnicodeDecodeError (pos : nat)
| UnsupportedMethod (allowed : list pyval)
| CancelledError
| DefGen_Return (msg : pystr)
| OtherError (name msg : pystr).

Inductive py (A : Type) : Type :=
| Ok (a : A)
| Raise (e : exn).
Arguments Ok {A} a.
Arguments Raise {A} e.

Definition py_bind {A B} (m : py A) (k : A -> py B) : py B :=
  match m with Ok a => k a | Raise e => Raise e end.

Notation "x <-? m ;; k" := (py_bind m (fun x => k))
  (at level 61, m at next level, right associativity).

Definition exn_name (e : exn) : pystr :=
  match e with
  | ValueError _ => "ValueError"
  | IndexError _ => "IndexError"
  | TypeError _ => "TypeError"
  | NameError _ => "NameError"
  | UnicodeDecodeError _ => "UnicodeDecodeError"
  | UnsupportedMethod _ => "UnsupportedMethod"
  | CancelledError => "CancelledError"
  | DefGen_Return _ => "_DefGen_Return"
  | OtherError n _ => n
  end.

(** [str(e)], i.e. [failure.getErrorMessage()]. *)
Definition exn_msg (e : exn) : pystr :=
  match e with
  | ValueError m | IndexError m | TypeError m | NameError m
  | DefGen_Return m | OtherError _ m => m
  | UnicodeDecodeError p =>
      "'ascii' codec can't decode byte in position " ++ nat_repr p
      ++ ": ordinal not in range(128)"
  | UnsupportedMethod _ => "Expected one of the allowed methods"
  | CancelledError => EmptyString
  end.

(** [traceback.format_exc()] for exception [e]: the stack frames (file
    names and source lines, a property of the installation) followed by the
    final line [<type>: <str(e)>]. *)
Definition format_exc (frames : pystr) (e : exn) : pystr :=
  "Traceback (most recent call last):" ++ NL ++ frames
  ++ exn_name e ++ ": " ++ exn_msg e ++ NL.

(** Python 2 [unicode(s)] and [s.encode(enc)] on a [str]: both first decode
    [s] with the default codec, ASCII, and raise on a byte above 0x7f. *)
Definition ascii_decode (s : pystr) : py pystr :=
  match first_non_ascii 0 s with
  | None => Ok s
  | Some p => Raise (UnicodeDecodeError p)
  end.

(** [bool(v)] *)
Definition truthy (v : pyval) : bool :=
  match v with
  | PNone => false
  | PBool b => b
  | PInt z => negb (Z.eqb z 0)
  | PFloat (FFinite r) => negb (String.eqb r "0.0" || String.eqb r "-0.0")
  | PFloat _ => true
  | PStr s => negb (String.eqb s EmptyString)
  | PList l | PTuple l => negb (Nat.eqb (List.length l) 0)
  | PDict l => negb (Nat.eqb (List.length l) 0)
  | PElement (Elem _ _ ch _) => negb (Nat.eqb (List.length ch) 0)
  | PObj _ => true
  end.

(* ------------------------------------------------------------------------- *)
(** ** The [json] module of Python 2.7 (as called with [allow_nan=False],
    [ensure_ascii=False]) *)

Module Json.

(** [ESCAPE_DCT]: the escape of one byte by [encode_basestring]. *)
Definition escape_char (c : ascii) : pystr :=
  let n := nat_of_ascii c in
  if Nat.eqb n 92 then "\\"
  else if Nat.eqb n 34 then "\" ++ QUOTE
  else if Nat.eqb n 8 then "\b"
  else if Nat.eqb n 12 then "\f"
  else if Nat.eqb n 10 then "\n"
  else if Nat.eqb n 13 then "\r"
  else if Nat.eqb n 9 then "\t"
  else if Nat.ltb n 32 then
    "\u00" ++ String (hex_digit (n / 16)) (String (hex_digit (n mod 16)) EmptyString)
  else String c EmptyString.

Fixpoint escape (s : pystr) : pystr :=
  match s with
  | EmptyString => EmptyString
  | String c s' => escape_char c ++ escape s'
  end.

(** [encode_basestring] (bytes above 0x7f are UTF-8 text, which [json]
    decodes and emits unchanged when [ensure_ascii=False]). *)
Definition encode_basestring (s : pystr) : pystr := QUOTE ++ escape s ++ QUOTE.

(** [floatstr] with [allow_nan=False]. *)
Definition floatstr (f : pyfloat) : py pystr :=
  match f with
  | FFinite r => Ok r
  | _ => Raise (ValueError "Out of range float values are not JSON compliant")
  end.

(** The key of a dict item, as [_iterencode_dict] turns it into a string. *)
Definition key_str (k : pyval) : py pystr :=
  match k with
  | PStr s => Ok s
  | PFloat f => floatstr f
  | PBool true => Ok "true"
  | PBool false => Ok "false"
  | PNone => Ok "null"
  | PInt z => Ok (z_repr z)
  | _ => Raise (TypeError "key is not a string")
  end.

(** Order of [sorted(dct.items(), key=lambda kv: kv[0])] on the keys that
    occur in this package: strings bytewise, integers numerically, [None]
    below numbers below strings. *)
Definition key_rank (k : pyval) : nat :=
  match k with PNone => 0 | PBool _ | PInt _ => 1 | PStr _ => 2 | _ => 3 end.

Definition key_le (a b : pyval) : bool :=
  match a, b with
  | PStr x, PStr y => String.leb x y
  | (PInt _ | PBool _), (PInt _ | PBool _) =>
      let num v := match v with PInt z => z | PBool true => 1%Z | _ => 0%Z end in
      Z.leb (num a) (num b)
  | _, _ => Nat.leb (key_rank a) (key_rank b)
  end.

Fixpoint insert_item {B} (kv : pyval * B) (l : list (pyval * B)) :=
  match l with
  | [] => [kv]
  | kv' :: l' =>
      if key_le (fst kv) (fst kv') then kv :: l else kv' :: insert_item kv l'
  end.

(** [sorted] is stable: insertion from the back keeps equal keys in order. *)
Definition sort_items {B} (l : list (pyval * B)) : list (pyval * B) :=
  fold_right insert_item [] l.

Fixpoint spaces (n : nat) : pystr :=
  match n with O => EmptyString | S k => " " ++ spaces k end.

(** Separators: [', ']/[': '] by default; with [indent], each item starts
    on a new line, and Python 2.7 keeps the trailing space of [', ']. *)
Definition open_sep (indent : option nat) (lvl : nat) : pystr :=
  match indent with None => EmptyString | Some n => NL ++ spaces (n * S lvl) end.

Definition item_sep (indent : option nat) (lvl : nat) : pystr :=
  ", " ++ open_sep indent lvl.

Definition close_sep (indent : option nat) (lvl : nat) : pystr :=
  match indent with None => EmptyString | Some n => NL ++ spaces (n * lvl) end.

Fixpoint join_py (sep : pystr) (l : list pystr) : pystr :=
  match l with
  | [] => EmptyString
  | [x] => x
  | x :: l' => x ++ sep ++ join_py sep l'
  end.

Fixpoint all_ok (l : list (py pystr)) : py (list pystr) :=
  match l with
  | [] => Ok []
  | m :: l' => x <-? m ;; xs <-? all_ok l' ;; Ok (x :: xs)
  end.

(** [_iterencode]: [json.dumps(v, allow_nan=False, ensure_ascii=False,
    sort_keys=sk, indent=ind)], at nesting level [lvl]. *)
Fixpoint encode (sk : bool) (ind : option nat) (lvl : nat) (v : pyval)
  : py pystr :=
  match v with
  | PNone => Ok "null"
  | PBool true => Ok "true"
  | PBool false => Ok "false"
  | PInt z => Ok (z_repr z)
  | PFloat f => floatstr f
  | PStr s => Ok (encode_basestring s)
  | PList l | PTuple l =>
      match l with
      | [] => Ok "[]"
      | _ =>
          items <-? all_ok (map (encode sk ind (S lvl)) l) ;;
          Ok ("[" ++ open_sep ind lvl ++ join_py (item_sep ind lvl) items
              ++ close_sep ind lvl ++ "]")
      end
  | PDict kvs =>
      match kvs with
      | [] => Ok "{}"
      | _ =>
          (* each value paired with its encoding; the items are then taken
             in sorted order when [sort_keys] is set *)
          let pairs := map (fun kv => (fst kv, encode sk ind (S lvl) (snd kv))) kvs in
          let pairs' := if sk then sort_items pairs else pairs in
          let enc_item (kx : pyval * py pystr) :=
            k <-? key_str (fst kx) ;;
            x <-? snd kx ;;
            Ok (encode_basestring k ++ ": " ++ x) in
          items <-? all_ok (map enc_item pairs') ;;
          Ok ("{" ++ open_sep ind lvl ++ join_py (item_sep ind lvl) items
              ++ close_sep ind lvl ++ "}")
      end
  | PElement _ | PObj _ => Raise (TypeError "is not JSON serializable")
  end.

Definition dumps (sort_keys : bool) (indent : option nat) (v : pyval)
  : py pystr := encode sort_keys indent 0 v.

End Json.

(* ------------------------------------------------------------------------- *)
(** ** lxml: text assignment and serialisation *)

Module Lxml.

(** [_utf8] on a Python 2 [str] assigned to [.text]: ASCII without NULL or
    control characters other than \t, \n and \r. *)
Definition text_byte_ok (c : ascii) : bool :=
  let n := nat_of_ascii c in
  Nat.ltb n 128 && (Nat.leb 32 n || Nat.eqb n 9 || Nat.eqb n 10 || Nat.eqb n 13).

Fixpoint text_ok (s : pystr) : bool :=
  match s with
  | EmptyString => true
  | String c s' => text_byte_ok c && text_ok s'
  end.

(** [element.text = v] *)
Definition set_text (v : option pystr) : py (option pystr) :=
  match v with
  | None => Ok None
  | Some s =>
      if text_ok s then Ok (Some s)
      else Raise (ValueError ("All strings must be XML compatible: Unicode or ASCII, "
                              ++ "no NULL bytes or control characters"))
  end.

(** libxml2's escaping of text content: [&], [<], [>], and a carriage
    return as a character reference. *)
Definition escape_char (c : ascii) : pystr :=
  let n := nat_of_ascii c in
  if Nat.eqb n 38 then "&amp;"
  else if Nat.eqb n 60 then "&lt;"
  else if Nat.eqb n 62 then "&gt;"
  else if Nat.eqb n 13 then "&#13;"
  else String c EmptyString.

Fixpoint escape (s : pystr) : pystr :=
  match s with
  | EmptyString => EmptyString
  | String c s' => escape_char c ++ escape s'
  end.

Definition opt_text (t : option pystr) : pystr :=
  match t with None => EmptyString | Some s => escape s end.

Fixpoint serialize (e : element) : pystr :=
  match e with
  | Elem tag text children tail =>
      let inner := opt_text text ++ String.concat EmptyString (map serialize children) in
      match text, children with
      | None, [] => "<" ++ tag ++ "/>"
      | _, _ => "<" ++ tag ++ ">" ++ inner ++ "</" ++ tag ++ ">"
      end ++ opt_text tail
  end.

(** [etree.tostring(e, pretty_print=True)] of a tree whose layout is already
    given by whitespace text and tails: lxml keeps it and ends with a newline. *)
Definition tostring_pretty (e : element) : pystr := serialize e ++ NL.

Definition upper_char (c : ascii) : ascii :=
  let n := nat_of_ascii c in
  if Nat.leb 97 n && Nat.leb n 122 then chr (n - 32) else c.

Fixpoint upper (s : pystr) : pystr :=
  match s with
  | EmptyString => EmptyString
  | String c s' => String (upper_char c) (upper s')
  end.

(** [etree.tostring(e, encoding=enc)]: an XML declaration is written unless
    the encoding is ASCII or UTF-8. *)
Definition tostring_enc (e : element) (enc : pystr) : pystr :=
  if existsb (String.eqb (upper enc)) ["ASCII"; "US-ASCII"; "UTF-8"; "UTF8"]
  then serialize e
  else "<?xml version='1.0' encoding='" ++ enc ++ "'?>" ++ NL ++ serialize e.

End Lxml.

(* ------------------------------------------------------------------------- *)
(** ** The Twisted request and the state it carries *)

(** The parts of [twisted.web.server.Request] the engine reads. *)
Record request := mkRequest {
  rq_method : pystr;                (* request.method *)
  rq_uri : pystr;                   (* request.uri *)
  rq_content : py pystr;            (* request.content.read() *)
  rq_displayTracebacks : bool;      (* request.site.displayTracebacks *)
}.

(** The parts of the request the engine mutates.  [st_written] is the data
    [http.Request.write] takes for the body, in order (for a HEAD request the
    transport then sends the headers only); [st_calls] records each
    invocation of a [rest*] handler with its arguments after [request];
    [st_later] is the queue of [reactor.callLater(0, request.render, v)]. *)
Record req_state := mkState {
  st_code : Z;
  st_headers : list (pystr * pystr);
  st_written : list pystr;
  st_finished : bool;                 (* request.finished *)
  st_finish_calls : nat;              (* number of request.finish() calls *)
  st_recursion : nat;                 (* request.recursion *)
  st_method_called : pystr;           (* request.method_called *)
  st_calls : list (pystr * list pyval);
  st_later : list pyval;
  st_disconnected : bool;             (* request._disconnected *)
  st_fake_head : bool;                (* request._inFakeHead *)
}.

Definition init_state : req_state :=
  mkState 200 [] [] false 0 0 EmptyString [] [] false false.

(** State and Python exceptions: a raised exception keeps the mutations made
    before it. *)
Definition M (A : Type) := req_state -> py A * req_state.

Definition ret {A} (a : A) : M A := fun s => (Ok a, s).

Definition bind {A B} (m : M A) (k : A -> M B) : M B :=
  fun s => match m s with
           | (Ok a, s') => k a s'
           | (Raise e, s') => (Raise e, s')
           end.

Notation "x <- m ;; k" := (bind m (fun x => k))
  (at level 61, m at next level, right associativity).

Definition throw {A} (e : exn) : M A := fun s => (Raise e, s).

Definition lift {A} (p : py A) : M A := fun s => (p, s).

(** [try: m except Exception as e: h(e)] *)
Definition try_except {A} (m : M A) (h : exn -> M A) : M A :=
  fun s => match m s with
           | (Raise e, s') => h e s'
           | r => r
           end.

(** An exception the caller logs and drops (an unhandled error at the end of
    a Deferred chain, or in a function run by the reactor). *)
Definition swallow (m : M unit) : M unit := try_except m (fun _ => ret tt).

Definition modify (f : req_state -> req_state) : M unit := fun s => (Ok tt, f s).
Definition gets {A} (f : req_state -> A) : M A := fun s => (Ok (f s), s).

Definition setResponseCode (c : Z) : M unit :=
  modify (fun s => mkState c (st_headers s) (st_written s) (st_finished s)
                     (st_finish_calls s) (st_recursion s) (st_method_called s)
                     (st_calls s) (st_later s) (st_disconnected s) (st_fake_head s)).

Definition setHeader (k v : pystr) : M unit :=
  modify (fun s => mkState (st_code s)
                     ((k, v) :: filter (fun kv => negb (String.eqb (fst kv) k)) (st_headers s))
                     (st_written s) (st_finished s) (st_finish_calls s) (st_recursion s)
                     (st_method_called s) (st_calls s) (st_later s)
                     (st_disconnected s) (st_fake_head s)).

Definition append_written (b : pystr) : M unit :=
  modify (fun s => mkState (st_code s) (st_headers s) (st_written s ++ [b])
                     (st_finished s) (st_finish_calls s) (st_recursion s)
                     (st_method_called s) (st_calls s) (st_later s)
                     (st_disconnected s) (st_fake_head s)).

(** [request.write(data)]: [server.Request.write] passes nothing on while
    Twisted fakes a GET for a HEAD; [http.Request.write] raises after
    [finish], and drops the data once the connection is lost. *)
Definition write (b : pystr) : M unit :=
  fun s =>
    if st_fake_head s then (Ok tt, s)
    else if st_finished s then
      (Raise (OtherError "RuntimeError"
                "Request.write called on a request after Request.finish was called."), s)
    else if st_disconnected s then (Ok tt, s)
    else append_written b s.

(** [request.finish()] ([http.Request.finish]): it raises once the connection
    is lost; a second call only warns; otherwise it sets [finished]. *)
Definition finish : M unit :=
  fun s =>
    let s1 := mkState (st_code s) (st_headers s) (st_written s) (st_finished s)
                (S (st_finish_calls s)) (st_recursion s) (st_method_called s)
                (st_calls s) (st_later s) (st_disconnected s) (st_fake_head s) in
    if st_disconnected s then
      (Raise (OtherError "RuntimeError"
                ("Request.finish called on a request after its connection was lost; "
                 ++ "use Request.notifyFinish to keep track of this.")), s1)
    else if st_finished s then (Ok tt, s1)
    else (Ok tt, mkState (st_code s1) (st_headers s1) (st_written s1) true
                   (st_finish_calls s1) (st_recursion s1) (st_method_called s1)
                   (st_calls s1) (st_later s1) (st_disconnected s1) (st_fake_head s1)).

Definition set_recursion (n : nat) : M unit :=
  modify (fun s => mkState (st_code s) (st_headers s) (st_written s)
                     (st_finished s) (st_finish_calls s) n (st_method_called s)
                     (st_calls s) (st_later s) (st_disconnected s) (st_fake_head s)).

Definition set_method_called (m : pystr) : M unit :=
  modify (fun s => mkState (st_code s) (st_headers s) (st_written s)
                     (st_finished s) (st_finish_calls s) (st_recursion s) m
                     (st_calls s) (st_later s) (st_disconnected s) (st_fake_head s)).

Definition record_call (m : pystr) (args : list pyval) : M unit :=
  modify (fun s => mkState (st_code s) (st_headers s) (st_written s)
                     (st_finished s) (st_finish_calls s) (st_recursion s)
                     (st_method_called s) (st_calls s ++ [(m, args)]) (st_later s)
                     (st_disconnected s) (st_fake_head s)).

(** [reactor.callLater(0, request.render, v)] *)
Definition call_later (v : pyval) : M unit :=
  modify (fun s => mkState (st_code s) (st_headers s) (st_written s)
                     (st_finished s) (st_finish_calls s) (st_recursion s)
                     (st_method_called s) (st_calls s) (st_later s ++ [v])
                     (st_disconnected s) (st_fake_head s)).

Definition set_later (l : list pyval) : M unit :=
  modify (fun s => mkState (st_code s) (st_headers s) (st_written s)
                     (st_finished s) (st_finish_calls s) (st_recursion s)
                     (st_method_called s) (st_calls s) l
                     (st_disconnected s) (st_fake_head s)).

(** [request._inFakeHead = b] *)
Definition set_fake_head (b : bool) : M unit :=
  modify (fun s => mkState (st_code s) (st_headers s) (st_written s)
                     (st_finished s) (st_finish_calls s) (st_recursion s)
                     (st_method_called s) (st_calls s) (st_later s)
                     (st_disconnected s) b).

(** [http.Request.connectionLost]: [self._disconnected = True]. *)
Definition set_disconnected : M unit :=
  modify (fun s => mkState (st_code s) (st_headers s) (st_written s)
                     (st_finished s) (st_finish_calls s) (st_recursion s)
                     (st_method_called s) (st_calls s) (st_later s) true
                     (st_fake_head s)).

(* ------------------------------------------------------------------------- *)
(** ** Error pages: [txrest.json.JsonErrorPage] and [txrest.xml.XmlErrorPage] *)

Definition DEFAULT_ENCODING : pystr := "utf-8".

Inductive error_class := JsonErrorPage | XmlErrorPage.

(** [ERROR_CLASS(status, brief, detail, log=...)]: a page with the default
    [encoding=DEFAULT_ENCODING], the only one the engine builds.  (The
    codecs other encodings name, which [brief.encode], [unicode(detail)
    .encode] and [json.dumps(encoding=...)] apply, are not modelled.) *)
Record error_page := mkErrorPage {
  ep_class : error_class;
  ep_code : Z;
  ep_brief : pystr;
  ep_detail : pystr;
  ep_log : bool;
}.

Definition json_ACCEPT_HEADER : pystr := "application/json".
Definition json_CONTENT_TYPE_HEADER (enc : pystr) : pystr :=
  "application/json; charset=" ++ enc.
Definition xml_ACCEPT_HEADER : pystr := "application/xml".
Definition xml_CONTENT_TYPE_HEADER (enc : pystr) : pystr :=
  "application/xml; charset=" ++ enc.

(** The dictionary [JsonErrorPage.render] serialises. *)
Definition json_error_doc (code : Z) (brief : pystr) (detail : pyval) : pyval :=
  PDict [(PStr "code", PInt code); (PStr "error", PStr brief);
         (PStr "detail", detail)].

(** [JsonErrorPage.render(request)] with [self.encoding = 'utf-8']: the
    UTF-8 encoding of ASCII text is the text itself, and [json.dumps] with
    [encoding='utf-8'] leaves [str] values as they are. *)
Definition JsonErrorPage_render (rq : request) (ep : error_page) : M pystr :=
  brief <- lift (ascii_decode (ep_brief ep)) ;;        (* self.brief.encode(enc) *)
  detail <- lift (ascii_decode (ep_detail ep)) ;;      (* unicode(self.detail).encode(enc) *)
  let detail_v := if rq_displayTracebacks rq then PStr detail else PNone in
  _ <- (if ep_log ep
        then _ <- lift (ascii_decode (ep_brief ep)) ;;  (* normalize('NFKD', unicode(...)) *)
             _ <- lift (ascii_decode (ep_detail ep)) ;;
             ret tt
        else ret tt) ;;
  _ <- setResponseCode (ep_code ep) ;;
  _ <- setHeader "accept" json_ACCEPT_HEADER ;;
  _ <- setHeader "content-type" (json_CONTENT_TYPE_HEADER DEFAULT_ENCODING) ;;
  lift (Json.dumps true (Some 4) (json_error_doc (ep_code ep) brief detail_v)).

(** [XML_TEMPLATE] parsed by [etree.fromstring], with the texts of [code],
    [brief] and [detail] set. *)
Definition xml_error_tree (code brief detail : option pystr) : element :=
  let ind := NL ++ "    " in
  Elem "ErrorPage" (Some ind)
    [Elem "code" code [] (Some ind);
     Elem "brief" brief [] (Some ind);
     Elem "detail" detail [] (Some NL)] None.

(** [XmlErrorPage.render(request)] with [self.encoding = 'utf-8']: in the
    logging branch, [normalize('NFKD', unicode(s)).encode('utf-8', 'ignore')]
    gives back an ASCII [s] and raises on any other. *)
Definition XmlErrorPage_render (rq : request) (ep : error_page) : M pystr :=
  let detail0 := if rq_displayTracebacks rq then Some (ep_detail ep) else None in
  detail <- (if ep_log ep
             then _ <- lift (ascii_decode (ep_brief ep)) ;;
                  d <- lift (ascii_decode (ep_detail ep)) ;;
                  ret (Some d)                          (* detail = normalize(...) *)
             else ret detail0) ;;
  code_t <- lift (Lxml.set_text (Some (z_repr (ep_code ep)))) ;;
  brief_t <- lift (Lxml.set_text (Some (ep_brief ep))) ;;
  detail_t <- lift (Lxml.set_text detail) ;;
  _ <- setResponseCode (ep_code ep) ;;
  _ <- setHeader "accept" xml_ACCEPT_HEADER ;;
  _ <- setHeader "content-type" (xml_CONTENT_TYPE_HEADER DEFAULT_ENCODING) ;;
  ret (Lxml.tostring_pretty (xml_error_tree code_t brief_t detail_t)).

Definition ErrorPage_render (rq : request) (ep : error_page) : M pystr :=
  match ep_class ep with
  | JsonErrorPage => JsonErrorPage_render rq ep
  | XmlErrorPage => XmlErrorPage_render rq ep
  end.

(* ------------------------------------------------------------------------- *)
(** ** Resources *)

(** [JsonResource] or [XmlResource]. *)
Inductive fmt := JsonFormat | XmlFormat.

(** What [getattr(self, name, None)] finds. *)
Inductive attr :=
| AFunc (h : nat)          (* a function of the class body: a method *)
| ACallable (h : nat)      (* another callable attribute *)
| AData (v : pyval).       (* a non-callable attribute *)

Record rest_resource := mkRest {
  res_format : fmt;
  res_encoding : pystr;               (* self.encoding *)
  res_fq_name : pystr;                (* self.__module__ + '.' + class name *)
  res_file : pystr;                   (* abspath(inspect.getfile(self.__class__)) *)
  res_attrs : list (pystr * attr);    (* attributes, first match wins *)
}.

(** Objects a handler can return by reference: all are Twisted resources. *)
Inductive pyobj :=
| ORest (r : rest_resource)
| OErrorPage (ep : error_page)
| OPlain (body : pystr).              (* a resource whose render returns [body] *)

(** The world the engine runs in: the heap, the handlers' behaviour
    ([method(request, *args)]), the parsers of the libraries, and the stack
    frames that tracebacks print. *)
Record env := mkEnv {
  heap : nat -> option pyobj;
  handlers : nat -> list pyval -> py pyval;
  json_loads : pystr -> py pyval;
  xml_fromstring : pystr -> py element;
  tb_frames : pystr;
  (* [_format_response(request, v, enc)] for an [enc] other than 'utf-8':
     the result of the codec's conversions, which the model does not carry *)
  codec_response : fmt -> pyval -> pystr -> py pystr;
}.

Definition ACCEPT (f : fmt) : pystr :=
  match f with JsonFormat => json_ACCEPT_HEADER | XmlFormat => xml_ACCEPT_HEADER end.

Definition CONTENT_TYPE (f : fmt) (enc : pystr) : pystr :=
  match f with
  | JsonFormat => json_CONTENT_TYPE_HEADER enc
  | XmlFormat => xml_CONTENT_TYPE_HEADER enc
  end.

Definition ERROR_CLASS (f : fmt) : error_class :=
  match f with JsonFormat => JsonErrorPage | XmlFormat => XmlErrorPage end.

(** [isinstance(response, self.HANDLE_TYPES)]: [(dict, list, tuple)] for
    JSON, the element classes for XML. *)
Definition HANDLE_TYPES (f : fmt) (v : pyval) : bool :=
  match f, v with
  | JsonFormat, (PDict _ | PList _ | PTuple _) => true
  | XmlFormat, PElement _ => true
  | _, _ => false
  end.

(** [isinstance(response, resource.Resource)] *)
Definition is_resource (e : env) (v : pyval) : bool :=
  match v with
  | PObj i => match heap e i with Some _ => true | None => false end
  | _ => false
  end.

Definition type_repr (v : pyval) : pystr :=
  match v with
  | PNone => "<type 'NoneType'>"
  | PBool _ => "<type 'bool'>"
  | PInt _ => "<type 'int'>"
  | PFloat _ => "<type 'float'>"
  | PStr _ => "<type 'str'>"
  | PList _ => "<type 'list'>"
  | PTuple _ => "<type 'tuple'>"
  | PDict _ => "<type 'dict'>"
  | PElement _ => "<type 'lxml.etree._Element'>"
  | PObj _ => "<type 'instance'>"
  end.

(* ------------------------------------------------------------------------- *)
(** ** Codecs: [_format_post] and [_format_response] *)

(** [s[0]] *)
Definition index0 (s : pystr) : py ascii :=
  match s with
  | EmptyString => Raise (IndexError "string index out of range")
  | String c _ => Ok c
  end.

(** [JsonResource._format_post(request, body, encoding)] *)
Definition json_format_post (loads : pystr -> py pyval) (body : pystr) : py pyval :=
  char <-? index0 (lstrip body) ;;
  if negb (existsb (Ascii.eqb char) ["{"%char; "["%char]) then
    Raise (ValueError ("Invalid JSON first character != { or [... " ++ NL
                       ++ "Got: " ++ slice_to 60 body ++ " ..."))
  else
    body_data <-? loads body ;;
    Ok body_data.

(** [XmlResource._format_post(request, body, encoding)]: the parsed tree is
    bound to [body_data] and the function ends without a [return]. *)
Definition xml_format_post (fromstring : pystr -> py element) (body : pystr)
  : py pyval :=
  let start := slice_to 5 (lstrip body) in
  if negb (String.prefix "<?xml" start) then
    Raise (ValueError ("Invalid XML post body does not start with != <?xml... " ++ NL
                       ++ "Got: " ++ slice_to 60 body ++ " ..."))
  else
    body_data <-? fromstring body ;;
    Ok PNone.

Definition format_post (e : env) (f : fmt) (body : pystr) : py pyval :=
  match f with
  | JsonFormat => json_format_post (json_loads e) body
  | XmlFormat => xml_format_post (xml_fromstring e) body
  end.

(** [JsonResource._format_response] with [encoding='utf-8']:
    [json.dumps(response, allow_nan=False, check_circular=False,
    ensure_ascii=False, encoding='utf-8').encode('utf-8')].  With that
    encoding [json.dumps] leaves [str] values as they are, so its result is
    a [str]; [.encode] on a [str] first decodes it as ASCII. *)
Definition json_format_response (response : pyval) : py pystr :=
  rstr <-? Json.dumps false None response ;;
  ascii_decode rstr.

(** [XmlResource._format_response] with [encoding='utf-8']:
    [etree.tostring(response, encoding='utf-8')], with no XML declaration
    for that encoding. *)
Definition xml_format_response (response : pyval) : py pystr :=
  match response with
  | PElement el => Ok (Lxml.tostring_enc el DEFAULT_ENCODING)
  | _ => Raise (TypeError "Type is not an element")
  end.

(** [self._format_response(request, response, self.encoding)] *)
Definition format_response (e : env) (f : fmt) (response : pyval) (encoding : pystr)
  : py pystr :=
  if String.eqb encoding DEFAULT_ENCODING then
    match f with
    | JsonFormat => json_format_response response
    | XmlFormat => xml_format_response response
    end
  else codec_response e f response encoding.

(* ------------------------------------------------------------------------- *)
(** ** [txrest.RestResource] *)

Definition REST_METHOD : pystr := "rest".
Definition REST_METHOD_PREFIX : pystr := "rest_".
Definition RECURSION_DEPTH : nat := 5.
Definition INTERNAL_SERVER_ERROR : Z := 500.
Definition BAD_REQUEST : Z := 400.

Definition lookup_attr (r : rest_resource) (name : pystr) : option attr :=
  match find (fun na => String.eqb (fst na) name) (res_attrs r) with
  | Some (_, a) => Some a
  | None => None
  end.

(** [bool(getattr(self, name, None))] *)
Definition attr_truthy (a : option attr) : bool :=
  match a with
  | None => false
  | Some (AFunc _) | Some (ACallable _) => true
  | Some (AData v) => truthy v
  end.

(** The keys of a dict filled from a list: each element once. *)
Fixpoint dedup (l : list pystr) : list pystr :=
  match l with
  | [] => []
  | x :: l' => x :: filter (fun y => negb (String.eqb y x)) (dedup l')
  end.

(** [twisted.python.reflect.prefixedMethodNames(cls, prefix)]: the names
    [name[len(prefix):]] of the functions of the class and its bases whose
    name starts with [prefix] and is longer than it, collected as the keys
    of a dict ([dict[optName] = 1]), so each name comes once.  [res_attrs]
    holds the bindings of the classes' namespaces, a base's binding after
    the subclass's; [AFunc] marks a function ([types.FunctionType]).  The
    order of [list(dct.keys())] is CPython's hash order: the model keeps the
    order of first occurrence. *)
Definition prefixedMethodNames (r : rest_resource) (prefix : pystr) : list pystr :=
  dedup (flat_map (fun na =>
              match snd na with
              | AFunc _ =>
                  let optName := substring (String.length prefix)
                                   (String.length (fst na) - String.length prefix) (fst na) in
                  if String.prefix prefix (fst na)
                     && negb (Nat.eqb (String.length optName) 0)
                  then [optName]
                  else []
              | _ => []
              end) (res_attrs r)).

(** The loop of [_allowed_methods]: [n.encode('ascii')] on a name with a
    byte above 0x7f raises, which ends the loop and keeps what was built. *)
Fixpoint append_ascii_names (acc : list pyval) (names : list pystr) : list pyval :=
  match names with
  | [] => acc
  | n :: ns =>
      match ascii_decode n with
      | Ok n' => append_ascii_names (acc ++ [PStr n']) ns
      | Raise _ => acc
      end
  end.

(** [RestResource._allowed_methods()] *)
Definition _allowed_methods (r : rest_resource) : list pyval :=
  append_ascii_names [PStr "HEAD"] (prefixedMethodNames r REST_METHOD_PREFIX).

(** The text of the [_DefGen_Return] diagnostic (after [dedent] and [strip]). *)
Definition defgen_message (fq_name method_called file_path : pystr) : pystr :=
  "Received a Deferred Generator Response from Resource (" ++ fq_name ++ ")" ++ NL
  ++ "in the method:  [" ++ method_called ++ "] ...................................." ++ NL
  ++ "This indicates you may be missing a yield statement and" ++ NL
  ++ "the decorator `@defer.inlineCallbacks`." ++ NL
  ++ "File: " ++ file_path ++ NL ++ NL
  ++ "If you do not have a yield statement, you should use a regular" ++ NL
  ++ "`return` statement and remove `defer.returnValue()`".

Section RestResource.

Variable e : env.
Variable r : rest_resource.
Variable rq : request.

Definition fq_name : pystr := res_fq_name r.

(** [self.ERROR_CLASS(code, brief, detail, log=False).render(request)] *)
Definition render_error (code : Z) (brief detail : pystr) : M pystr :=
  ErrorPage_render rq
    (mkErrorPage (ERROR_CLASS (res_format r)) code brief detail false).

(** [RestResource.on_response(response, request)] *)
Definition on_response (response : pyval) : M unit :=
  finished <- gets st_finished ;;
  if finished then ret tt else
  if HANDLE_TYPES (res_format r) response then
    rstr <- try_except (lift (format_response e (res_format r) response (res_encoding r)))
              (fun ex =>
                 method_called <- gets st_method_called ;;
                 let debug := "Resource: (" ++ fq_name ++ ") [" ++ method_called
                              ++ "] Output serialization failed" ++ NL
                              ++ format_exc (tb_frames e) ex in
                 render_error INTERNAL_SERVER_ERROR "Resource Error" debug) ;;
    _ <- setHeader "content-length" (nat_repr (String.length rstr)) ;;
    _ <- write rstr ;;
    finish
  else if is_resource e response then
    depth <- gets st_recursion ;;
    if Nat.leb RECURSION_DEPTH depth then
      (* [exc = ResourceRecursionLimit(...)] is built; then
         [request.processingFailed(failure.Failure(exc))] looks up the
         global [failure], which the module never imports *)
      throw (NameError "global name 'failure' is not defined")
    else
      _ <- set_recursion (S depth) ;;
      call_later response
  else
    method_called <- gets st_method_called ;;
    let debug := "Resource (" ++ fq_name ++ ") [" ++ method_called
                 ++ "] returned unsupported type " ++ type_repr response in
    resp <- render_error INTERNAL_SERVER_ERROR "Resource Error" debug ;;
    _ <- write resp ;;
    finish.

(** [failure.getTraceback()] *)
Definition failure_traceback (f : exn) : pystr := format_exc (tb_frames e) f.

(** [RestResource.on_failure(failure, request)] *)
Definition on_failure (f : exn) : M unit :=
  let file_path := res_file r in
  method_called <- gets st_method_called ;;
  rstr <- match f with
          | CancelledError => ret "Request was cancelled"
          | DefGen_Return _ =>
              render_error INTERNAL_SERVER_ERROR
                (defgen_message fq_name method_called file_path) (exn_msg f)
          | _ =>
              render_error INTERNAL_SERVER_ERROR "Unhandled Error"
                ("Exception in Resource (" ++ fq_name ++ ") [" ++ method_called
                 ++ "] <" ++ file_path ++ "> - " ++ failure_traceback f)
          end ;;
  finished <- gets st_finished ;;
  if finished then ret tt else
  _ <- write rstr ;;
  finish.

(** [df = maybeDeferred(method, *call_args)];
    [df.addCallback(self.on_response, request)];
    [df.addErrback(self.on_failure, request)]: an exception of [on_response]
    reaches [on_failure]; one of [on_failure] ends the chain. *)
Definition run_handler (meth_name : pystr) (h : nat) (args : list pyval) : M unit :=
  _ <- record_call meth_name args ;;
  swallow
    match handlers e h args with
    | Ok v => try_except (on_response v) on_failure
    | Raise ex => on_failure ex
    end.

Inductive render_result := NOT_DONE_YET | Body (b : pystr).

(** [RestResource.render(request)] *)
Definition render : M render_result :=
  _ <- set_recursion 0 ;;
  _ <- setHeader "accept" (ACCEPT (res_format r)) ;;
  _ <- setHeader "content-type" (CONTENT_TYPE (res_format r) (res_encoding r)) ;;
  let meth1 := REST_METHOD_PREFIX ++ rq_method rq in
  let '(meth_name, method) :=
    if attr_truthy (lookup_attr r meth1) then (meth1, lookup_attr r meth1)
    else (REST_METHOD, lookup_attr r REST_METHOD) in
  if negb (attr_truthy method) then
    let allowed_methods :=
      match lookup_attr r "allowedMethods" with
      | Some (AData (PList l)) | Some (AData (PTuple l)) => l
      | _ => _allowed_methods r
      end in
    throw (UnsupportedMethod allowed_methods)
  else
  match method with
  | Some (AFunc h) | Some (ACallable h) =>
      _ <- set_method_called meth_name ;;
      if existsb (String.eqb (rq_method rq)) ["POST"; "PUT"] then
        match rq_content rq with
        | Raise ex =>
            let err := "Failed reading HTTP BODY" ++ NL ++ format_exc (tb_frames e) ex in
            b <- render_error BAD_REQUEST "Malformed HTTP BODY" err ;;
            ret (Body b)
        | Ok body =>
            match format_post e (res_format r) body with
            | Raise ex =>
                let err := "Failed parsing HTTP BODY" ++ NL ++ format_exc (tb_frames e) ex in
                b <- render_error BAD_REQUEST "Malformed HTTP BODY" err ;;
                ret (Body b)
            | Ok body_data =>
                _ <- run_handler meth_name h [body_data] ;;
                ret NOT_DONE_YET
            end
        end
      else
        _ <- run_handler meth_name h [] ;;
        ret NOT_DONE_YET
  | _ =>
      let err := "Resource (`" ++ fq_name ++ "." ++ meth_name ++ "()`) is not callable" in
      b <- render_error INTERNAL_SERVER_ERROR "Resource Error" err ;;
      ret (Body b)
  end.

(** [RestResource.render_HEAD(request)] *)
Definition render_HEAD : pystr := EmptyString.

End RestResource.

(* ------------------------------------------------------------------------- *)
(** ** The Twisted side: [Request.render], [Request.processingFailed] and the
    reactor's [callLater] queue (library code the engine is driven by) *)

Definition NOT_ALLOWED : Z := 405.
Definition NOT_IMPLEMENTED : Z := 501.

(** [server.supportedMethods] *)
Definition supportedMethods : list pystr := ["GET"; "HEAD"; "POST"].

(** [cgi.escape(s)] *)
Definition html_escape_char (c : ascii) : pystr :=
  let n := nat_of_ascii c in
  if Nat.eqb n 38 then "&amp;"
  else if Nat.eqb n 60 then "&lt;"
  else if Nat.eqb n 62 then "&gt;"
  else String c EmptyString.

Fixpoint html_escape (s : pystr) : pystr :=
  match s with
  | EmptyString => EmptyString
  | String c s' => html_escape_char c ++ html_escape s'
  end.

(** [s.decode('charmap')] followed by [.encode('utf-8')]: each byte is the
    code point of the same value. *)
Fixpoint latin1_to_utf8 (s : pystr) : pystr :=
  match s with
  | EmptyString => EmptyString
  | String c s' =>
      let n := nat_of_ascii c in
      (if Nat.ltb n 128 then String c EmptyString
       else String (chr (192 + n / 64)) (String (chr (128 + n mod 64)) EmptyString))
      ++ latin1_to_utf8 s'
  end.

(** [twisted.python.compat.nativeString(x)] on Python 2. *)
Definition nativeString (v : pyval) : py pystr :=
  match v with
  | PStr s => _ <-? ascii_decode s ;; Ok s
  | _ => Raise (TypeError "is neither bytes nor unicode")
  end.

(** The items of a list that [', '.join] accepts: [str]s only. *)
Fixpoint str_items (l : list pyval) : py (list pystr) :=
  match l with
  | [] => Ok []
  | PStr x :: l' => xs <-? str_items l' ;; Ok (x :: xs)
  | _ :: _ => Raise (TypeError "sequence item: expected string")
  end.

Fixpoint native_items (l : list pyval) : py (list pystr) :=
  match l with
  | [] => Ok []
  | v :: l' => x <-? nativeString v ;; xs <-? native_items l' ;; Ok (x :: xs)
  end.

(** [twisted.web.resource.ErrorPage(code, brief, detail).render(request)] *)
Definition twisted_ErrorPage_render (code : Z) (brief detail : pystr) : M pystr :=
  _ <- setResponseCode code ;;
  _ <- setHeader "content-type" "text/html; charset=utf-8" ;;
  ret (NL ++ "<html>" ++ NL
       ++ "  <head><title>" ++ z_repr code ++ " - " ++ brief ++ "</title></head>" ++ NL
       ++ "  <body>" ++ NL
       ++ "    <h1>" ++ brief ++ "</h1>" ++ NL
       ++ "    <p>" ++ detail ++ "</p>" ++ NL
       ++ "  </body>" ++ NL
       ++ "</html>" ++ NL).

(** [resrc.render(request)] for the object [v] Twisted renders. *)
Definition resource_render (e : env) (rq : request) (v : pyval) : M render_result :=
  match v with
  | PObj i =>
      match heap e i with
      | Some (ORest r) => render e r rq
      | Some (OErrorPage ep) => b <- ErrorPage_render rq ep ;; ret (Body b)
      | Some (OPlain b) => ret (Body b)
      | None => throw (OtherError "AttributeError" "render")
      end
  | _ => throw (OtherError "AttributeError" "render")
  end.

(** [try: body = resrc.render(self) except UnsupportedMethod as e: ...] *)
Definition catch_unsupported (m : M render_result) : M (render_result + list pyval) :=
  fun s => match m s with
           | (Ok b, s') => (Ok (inl b), s')
           | (Raise (UnsupportedMethod l), s') => (Ok (inr l), s')
           | (Raise ex, s') => (Raise ex, s')
           end.

(** [b"GET" in allowedMethods] *)
Definition is_GET (v : pyval) : bool :=
  match v with PStr x => String.eqb x "GET" | _ => false end.

Definition as_GET (rq : request) : request :=
  mkRequest "GET" (rq_uri rq) (rq_content rq) (rq_displayTracebacks rq).

(** The end of [Request.render]: [NOT_DONE_YET] leaves the request open; a
    body is written with its length, and for [HEAD] only the headers are
    sent. *)
Definition finish_body (rq : request) (body : render_result) : M unit :=
  match body with
  | NOT_DONE_YET => ret tt
  | Body b =>
      if String.eqb (rq_method rq) "HEAD" then
        _ <- (if Nat.ltb 0 (String.length b)
              then setHeader "content-length" (nat_repr (String.length b))
              else ret tt) ;;
        _ <- write EmptyString ;;
        finish
      else
        _ <- setHeader "content-length" (nat_repr (String.length b)) ;;
        _ <- write b ;;
        finish
  end.

(** A HEAD to a resource that allows GET: Twisted renders it as a GET with
    [_inFakeHead] set, then sends the headers only. *)
Definition fake_head (e : env) (rq : request) (v : pyval) : M unit :=
  _ <- set_fake_head true ;;
  body <- resource_render e (as_GET rq) v ;;
  _ <- match body with
       | NOT_DONE_YET => ret tt
       | Body b => setHeader "content-length" (nat_repr (String.length b))
       end ;;
  _ <- set_fake_head false ;;
  _ <- write EmptyString ;;
  finish.

(** The page for [UnsupportedMethod(allowedMethods)]: 405 with an [Allow]
    header for a method Twisted supports, 501 for any other. *)
Definition unsupported_page (rq : request) (allowed : list pyval) : M pystr :=
  if existsb (String.eqb (rq_method rq)) supportedMethods then
    names <- lift (str_items allowed) ;;
    _ <- setHeader "Allow" (Json.join_py ", " names) ;;
    uri <- lift (nativeString (PStr (rq_uri rq))) ;;
    meth <- lift (nativeString (PStr (rq_method rq))) ;;
    allowed_n <- lift (native_items allowed) ;;
    twisted_ErrorPage_render NOT_ALLOWED "Method Not Allowed"
      ("Your browser approached me (at " ++ html_escape uri ++ ") with the method "
       ++ QUOTE ++ meth ++ QUOTE ++ ".  I only allow the method"
       ++ (if Nat.ltb 1 (List.length allowed) then "s" else EmptyString)
       ++ " " ++ Json.join_py ", " allowed_n ++ " here.")
  else
    twisted_ErrorPage_render NOT_IMPLEMENTED "Huh?"
      ("I don't know how to treat a " ++ html_escape (latin1_to_utf8 (rq_method rq))
       ++ " request.").

(** [twisted.web.server.Request.render(resrc)]; a body is always a [str]
    here, so the check [isinstance(body, bytes)] passes. *)
Definition request_render (e : env) (rq : request) (v : pyval) : M unit :=
  res <- catch_unsupported (resource_render e rq v) ;;
  match res with
  | inl body => finish_body rq body
  | inr allowed =>
      if String.eqb (rq_method rq) "HEAD" && existsb is_GET allowed
      then fake_head e rq v
      else b <- unsupported_page rq allowed ;; finish_body rq (Body b)
  end.

(** [Request.processingFailed(reason)]: a 500 page. *)
Definition processingFailed (ex : exn) : M unit :=
  _ <- setResponseCode INTERNAL_SERVER_ERROR ;;
  _ <- setHeader "content-type" "text/html" ;;
  _ <- write "<html><head><title>Processing Failed</title></head></html>" ;;
  finish.

(** One reactor tick per queued [callLater(0, request.render, v)]; an
    exception raised there is logged by the reactor. *)
Fixpoint run_reactor (e : env) (rq : request) (fuel : nat) : M unit :=
  match fuel with
  | O => ret tt
  | S n =>
      later <- gets st_later ;;
      match later with
      | [] => ret tt
      | v :: rest =>
          _ <- set_later rest ;;
          _ <- swallow (request_render e rq v) ;;
          run_reactor e rq n
      end
  end.

(** [Request.process()]: render the resource found for the request, turn an
    exception into [processingFailed], then let the reactor run. *)
Definition process (e : env) (rq : request) (root : pyval) (ticks : nat) : M unit :=
  _ <- try_except (request_render e rq root) processingFailed ;;
  run_reactor e rq ticks.

Definition run_request (e : env) (rq : request) (root : pyval) (ticks : nat)
  : req_state :=
  snd (process e rq root ticks init_state).

(* ------------------------------------------------------------------------- *)
(** ** Sample resources and requests *)

Definition mkJsonRes (attrs : list (pystr * attr)) : rest_resource :=
  mkRest JsonFormat DEFAULT_ENCODING "app.Res" "/srv/app.py" attrs.

Definition mkXmlRes (attrs : list (pystr * attr)) : rest_resource :=
  mkRest XmlFormat DEFAULT_ENCODING "app.XRes" "/srv/app.py" attrs.

(** The environments below run resources with the default encoding only. *)
Definition no_codec (f : fmt) (v : pyval) (enc : pystr) : py pystr :=
  Raise (OtherError "LookupError" ("unknown encoding: " ++ enc)).

Definition sample_frames : pystr :=
  "  File " ++ QUOTE ++ "/srv/app.py" ++ QUOTE ++ ", line 1, in rest_GET" ++ NL.

Definition GET (dt : bool) : request := mkRequest "GET" "/" (Ok EmptyString) dt.
Definition POST (body : pystr) (dt : bool) : request := mkRequest "POST" "/" (Ok body) dt.

Definition val_a1 : pyval := PDict [(PStr "a", PInt 1)].

Definition env1 : env :=
  mkEnv (fun i => match i with 0 => Some (ORest (mkJsonRes [("rest_GET", AFunc 0)]))
                          | _ => None end)
        (fun _ _ => Ok val_a1)
        (fun _ => Ok PNone)
        (fun _ => Ok (Elem "a" None [] None))
        sample_frames no_codec.

Example scenario1 :
  let s := run_request env1 (GET false) (PObj 0) 3 in
  st_written s = ["{" ++ QUOTE ++ "a" ++ QUOTE ++ ": 1}"] /\ st_code s = 200%Z
  /\ st_finished s = true.
Proof. vm_compute. repeat split; reflexivity. Qed.

(* ------------------------------------------------------------------------- *)
(** ** More of the package: the JSON codec's domain, the mixins, connection
    loss and construction *)

(** Values [json.dumps] serializes with [allow_nan=False]: [None], booleans,
    integers, finite floats, strings, lists, tuples and dicts of such
    values whose keys are strings, numbers, booleans or [None]. *)
Definition json_key_ok (k : pyval) : bool :=
  match k with
  | PStr _ | PBool _ | PNone | PInt _ => true
  | PFloat (FFinite _) => true
  | _ => false
  end.

Fixpoint json_ok (v : pyval) : bool :=
  match v with
  | PNone | PBool _ | PInt _ | PStr _ => true
  | PFloat (FFinite _) => true
  | PFloat _ => false
  | PList l | PTuple l => forallb json_ok l
  | PDict kvs => forallb (fun kv => json_key_ok (fst kv) && json_ok (snd kv)) kvs
  | PElement _ | PObj _ => false
  end.

(** Every string of a value, dict keys included, is ASCII (the [repr] of a
    finite float always is). *)
Fixpoint json_ascii (v : pyval) : bool :=
  match v with
  | PStr s => all_ascii s
  | PFloat (FFinite r) => all_ascii r
  | PList l | PTuple l => forallb json_ascii l
  | PDict kvs => forallb (fun kv => json_ascii (fst kv) && json_ascii (snd kv)) kvs
  | _ => true
  end.

(** [str.rstrip()] *)
Definition rstrip (s : pystr) : pystr :=
  string_of_list_ascii (rev (list_ascii_of_string (lstrip
    (string_of_list_ascii (rev (list_ascii_of_string s)))))).

(** [str.strip()] *)
Definition strip (s : pystr) : pystr := rstrip (lstrip s).

(** [EmptyPost._format_post(request, body, encoding)]: [body] is the
    [str] read from [request.content].  The [else] branch looks up the
    parent's [_format_post] and then evaluates its argument [response], a
    name bound nowhere in the module. *)
Definition EmptyPost_format_post (body : pystr) : py pyval :=
  if negb (truthy (PStr (strip body))) then Ok PNone
  else Raise (NameError "global name 'response' is not defined").

(** [a in b] on two [str]s. *)
Fixpoint str_in (a b : pystr) : bool :=
  String.prefix a b
  || match b with EmptyString => false | String _ b' => str_in a b' end.

Definition WWW_FORM : pystr := "application/x-www-form-urlencoded".
Definition FORM_DATA : pystr := "multipart/form-data".

(** [FormEncodedPost._format_post(request, body, encoding)] in a class
    decorated with [FormEncodedPost.mixin] whose base is a [JsonResource] or
    an [XmlResource] of format [f]: [content_type] is
    [request.getHeader('Content-Type')] ([None] when the header is
    absent), [args] is [request.args]; [super(self.__class__, self)] is the
    base's [_format_post]. *)
Definition FormEncodedPost_format_post (e : env) (f : fmt)
    (content_type : option pystr) (args : pyval) (body : pystr) : py pyval :=
  form_encoded <-?
    (if match content_type with
        | Some c => String.eqb c WWW_FORM
        | None => false
        end
     then Ok true
     else match content_type with
          | Some c => Ok (str_in FORM_DATA c)
          | None => Raise (TypeError "argument of type 'NoneType' is not iterable")
          end) ;;
  if form_encoded then Ok args else format_post e f body.

(** A mixin class: its name, its [methods] list, its own namespace
    ([cls.__dict__]) and the attributes it inherits, first match wins. *)
Record mixin_class := mkMixin {
  mx_name : pystr;
  mx_methods : list pystr;
  mx_dict : list (pystr * attr);
  mx_inherited : list (pystr * attr);
}.

(** The first binding of [name] in a namespace. *)
Definition assoc_attr (l : list (pystr * attr)) (name : pystr) : option attr :=
  match find (fun na => String.eqb (fst na) name) l with
  | Some (_, a) => Some a
  | None => None
  end.

(** The loop of [ResourceMixin.mixin(cls, impl_cls)] over [cls.methods],
    on the attributes of [impl_cls]: [getattr(cls, meth_name, None)] is
    [None] when the name is unbound or bound to [None];
    [cls.__dict__[meth_name]] raises [KeyError] when the name is only
    inherited; [setattr(impl_cls, meth_name, func)] binds the name in front
    of the others.  The bindings made before an exception stay. *)
Fixpoint mixin_loop (cls : mixin_class) (names : list pystr)
    (impl : list (pystr * attr)) : py unit * list (pystr * attr) :=
  match names with
  | [] => (Ok tt, impl)
  | meth_name :: ns =>
      match assoc_attr (mx_dict cls ++ mx_inherited cls) meth_name with
      | None | Some (AData PNone) =>
          (Raise (ValueError ("The method [" ++ meth_name
                   ++ "] was defined as a mixin, but is not implemented in the mixin class ["
                   ++ mx_name cls ++ "]")), impl)
      | Some _ =>
          match assoc_attr (mx_dict cls) meth_name with
          | None => (Raise (OtherError "KeyError" ("'" ++ meth_name ++ "'")), impl)
          | Some func => mixin_loop cls ns ((meth_name, func) :: impl)
          end
      end
  end.

(** [ResourceMixin.mixin(cls, impl_cls)] for a mixin that keeps
    [ResourceMixin.setup] (which does nothing): the outcome, and the class
    [impl_cls] as the loop leaves it. *)
Definition mixin (cls : mixin_class) (impl_cls : rest_resource)
  : py rest_resource * rest_resource :=
  let '(res, attrs) := mixin_loop cls (mx_methods cls) (res_attrs impl_cls) in
  let impl' := mkRest (res_format impl_cls) (res_encoding impl_cls)
                      (res_fq_name impl_cls) (res_file impl_cls) attrs in
  match res with
  | Ok _ => (Ok impl', impl')
  | Raise ex => (Raise ex, impl')
  end.

(** [RestResource.on_connection_closed(reason, deferred, request)]: the log
    lines aside, [deferred.cancel()].  [pending] tells whether [df] is still
    waiting for the handler's result: Twisted then fires its errback chain
    with a [CancelledError], which skips [on_response] and runs
    [on_failure]; an exception there stays in the Deferred.  A Deferred
    that has fired already ignores [cancel()]. *)
Definition on_connection_closed (e : env) (r : rest_resource) (rq : request)
    (pending : bool) : M unit :=
  if pending then swallow (on_failure e r rq CancelledError) else ret tt.

(** [http.Request.connectionLost(reason)] on a request still open:
    [_disconnected] is set, then the errbacks of [request.notifyFinish()]
    run, among them the [on_connection_closed] that [render] added. *)
Definition connection_lost (e : env) (r : rest_resource) (rq : request)
    (pending : bool) : M unit :=
  _ <- set_disconnected ;;
  on_connection_closed e r rq pending.

Definition SUBCLASS_ATTRS : list pystr :=
  ["ACCEPT"; "CONTENT_TYPE"; "HANDLE_TYPES"; "ERROR_CLASS"].

(** The loop over [SUBCLASS_ATTRS] in [RestResource.__init__]: for a missing
    attribute, the argument of [ValueError] is evaluated first, and
    [format % (self.__class__.__name__)] gives one argument to two [%s]. *)
Fixpoint check_subclass_attrs (has_attr : pystr -> bool) (attrs : list pystr)
  : py unit :=
  match attrs with
  | [] => Ok tt
  | a :: l =>
      if negb (has_attr a)
      then Raise (TypeError "not enough arguments for format string")
      else check_subclass_attrs has_attr l
  end.

(** [RestResource.__init__(self, encoding)], with no further arguments:
    [codecs.lookup(encoding)] raises [LookupError] on an encoding Python
    does not know ([known_encoding]); [has_attr] is [hasattr(self, _)]. *)
Definition RestResource_init (known_encoding has_attr : pystr -> bool)
    (encoding : pystr) : py unit :=
  if negb (known_encoding encoding)
  then Raise (OtherError "LookupError" ("unknown encoding: " ++ encoding))
  else check_subclass_attrs has_attr SUBCLASS_ATTRS.

(* ------------------------------------------------------------------------- *)
(** ** Frame lemmas: what a computation leaves untouched *)

(** [m] changes at most the status code, the headers, the recursion counter
    and [method_called]: nothing is written, finished, invoked or queued, and
    the connection state is untouched. *)
Definition frame (s s' : req_state) : Prop :=
  st_written s' = st_written s /\ st_finished s' = st_finished s
  /\ st_finish_calls s' = st_finish_calls s /\ st_calls s' = st_calls s
  /\ st_later s' = st_later s
  /\ st_disconnected s' = st_disconnected s /\ st_fake_head s' = st_fake_head s.

Definition quiet {A} (m : M A) : Prop := forall s, frame s (snd (m s)).

(** At most one write: either nothing is written and [finish] is not called,
    or exactly one string is written and [finish] is called once. *)
Definition one_write (s s' : req_state) : Prop :=
  (st_written s' = st_written s /\ st_finish_calls s' = st_finish_calls s
   /\ st_finished s' = st_finished s)
  \/ (exists b, st_written s' = (st_written s ++ [b])%list
                /\ st_finish_calls s' = S (st_finish_calls s) /\ st_finished s' = true).

(** One page written, then [finish] called once. *)
Definition page_written (s s' : req_state) : Prop :=
  exists page, st_written s' = (st_written s ++ [page])%list
               /\ st_finished s' = true /\ st_finish_calls s' = S (st_finish_calls s).


Create HintDb quiet_db.

Lemma frame_refl : forall s, frame s s.
Proof. intro s; repeat split. Qed.

Lemma frame_trans : forall s1 s2 s3, frame s1 s2 -> frame s2 s3 -> frame s1 s3.
Proof.
  intros s1 s2 s3 (A1 & B1 & C1 & D1 & E1 & F1 & G1) (A2 & B2 & C2 & D2 & E2 & F2 & G2).
  repeat split; congruence.
Qed.

Lemma quiet_ret : forall A (a : A), quiet (ret a).
Proof. intros A a s; apply frame_refl. Qed.

Lemma quiet_throw : forall A ex, quiet (@throw A ex).
Proof. intros A ex s; apply frame_refl. Qed.

Lemma quiet_lift : forall A (p : py A), quiet (lift p).
Proof. intros A p s; apply frame_refl. Qed.

Lemma quiet_gets : forall A (f : req_state -> A), quiet (gets f).
Proof. intros A f s; apply frame_refl. Qed.

Lemma quiet_setResponseCode : forall c, quiet (setResponseCode c).
Proof. intros c s; repeat split. Qed.

Lemma quiet_setHeader : forall k v, quiet (setHeader k v).
Proof. intros k v s; repeat split. Qed.

Lemma quiet_set_recursion : forall n, quiet (set_recursion n).
Proof. intros n s; repeat split. Qed.

Lemma quiet_set_method_called : forall m, quiet (set_method_called m).
Proof. intros m s; repeat split. Qed.

Lemma quiet_bind : forall A B (m : M A) (k : A -> M B),
  quiet m -> (forall a, quiet (k a)) -> quiet (bind m k).
Proof.
  intros A B m k Hm Hk s. unfold bind.
  specialize (Hm s). destruct (m s) as [[a|ex] s1]; simpl in *.
  - eapply frame_trans; [exact Hm | apply Hk].
  - exact Hm.
Qed.

Lemma quiet_if : forall A (b : bool) (m1 m2 : M A),
  quiet m1 -> quiet m2 -> quiet (if b then m1 else m2).
Proof. intros A [] m1 m2 H1 H2; assumption. Qed.

#[local] Hint Resolve quiet_ret quiet_throw quiet_lift quiet_gets
  quiet_setResponseCode quiet_setHeader quiet_set_recursion
  quiet_set_method_called quiet_bind quiet_if : quiet_db.

Lemma quiet_JsonErrorPage_render : forall rq ep, quiet (JsonErrorPage_render rq ep).
Proof. intros rq ep; unfold JsonErrorPage_render; eauto 20 with quiet_db. Qed.

Lemma quiet_XmlErrorPage_render : forall rq ep, quiet (XmlErrorPage_render rq ep).
Proof. intros rq ep; unfold XmlErrorPage_render; eauto 20 with quiet_db. Qed.

Lemma quiet_ErrorPage_render : forall rq ep, quiet (ErrorPage_render rq ep).
Proof.
  intros rq ep; unfold ErrorPage_render; destruct (ep_class ep);
    auto using quiet_JsonErrorPage_render, quiet_XmlErrorPage_render.
Qed.

Lemma quiet_render_error : forall r rq code brief detail,
  quiet (render_error r rq code brief detail).
Proof. intros; unfold render_error; apply quiet_ErrorPage_render. Qed.

#[local] Hint Resolve quiet_ErrorPage_render quiet_render_error : quiet_db.

(* ------------------------------------------------------------------------- *)
(** ** C1: a finished request is never written to again *)

(** C1.  Once [request.finished] is set, a later [on_response] returns
    at once and leaves the request unchanged, and a later [on_failure] (for
    any failure) writes nothing and calls [finish] no more, whichever of the
    two continuations fired first. *)
Theorem finished_request_never_written :
  forall e r rq s,
    st_finished s = true ->
    (forall v, on_response e r rq v s = (Ok tt, s)) /\
    (forall f, let s' := snd (on_failure e r rq f s) in
               st_written s' = st_written s /\ st_finish_calls s' = st_finish_calls s
               /\ st_finished s' = true).
Proof.
  intros e r rq s Hfin. split.
  - intro v. unfold on_response, bind, gets. rewrite Hfin. reflexivity.
  - intro f. unfold on_failure, bind, gets.
    assert (Hq : quiet
              (match f with
               | CancelledError => ret "Request was cancelled"
               | DefGen_Return _ =>
                   render_error r rq INTERNAL_SERVER_ERROR
                     (defgen_message (fq_name r) (st_method_called s) (res_file r)) (exn_msg f)
               | _ =>
                   render_error r rq INTERNAL_SERVER_ERROR "Unhandled Error"
                     ("Exception in Resource (" ++ fq_name r ++ ") [" ++ st_method_called s
                      ++ "] <" ++ res_file r ++ "> - " ++ failure_traceback e f)
               end)) by (destruct f; auto with quiet_db).
    specialize (Hq s).
    match type of Hq with frame s (snd (?m s)) => destruct (m s) as [[x|ex] s1] eqn:E end;
      simpl in Hq |- *; destruct Hq as (Hw & Hf & Hc & _);
      [rewrite Hf, Hfin; simpl | ]; repeat split; congruence.
Qed.

(* ------------------------------------------------------------------------- *)
(** ** Handler resolution and body intake *)

(** The handler [render] resolves (lines 142-146 of [txrest/__init__.py]). *)
Definition resolved_method (r : rest_resource) (m : pystr) : option attr :=
  if attr_truthy (lookup_attr r (REST_METHOD_PREFIX ++ m))
  then lookup_attr r (REST_METHOD_PREFIX ++ m)
  else lookup_attr r REST_METHOD.

(** [callable(method)] *)
Definition attr_callable (a : option attr) : bool :=
  match a with Some (AFunc _) | Some (ACallable _) => true | _ => false end.

Definition body_method (m : pystr) : bool := existsb (String.eqb m) ["POST"; "PUT"].

(** The state [render] has built when it reaches the body intake. *)
Definition primed (r : rest_resource) (meth_name : pystr) (s : req_state) : req_state :=
  snd ((_ <- set_recursion 0 ;;
        _ <- setHeader "accept" (ACCEPT (res_format r)) ;;
        _ <- setHeader "content-type" (CONTENT_TYPE (res_format r) (res_encoding r)) ;;
        set_method_called meth_name) s).

Lemma frame_primed : forall r m s, frame s (primed r m s).
Proof. intros; repeat split. Qed.

(** When the resolved handler is callable and the method carries a body,
    [render] reads the body and hands it to [_format_post]; a failure there
    renders the [MalformedBody] page, and nothing else happens. *)
Lemma render_decode_failure :
  forall e r rq s body ex,
    body_method (rq_method rq) = true ->
    attr_callable (resolved_method r (rq_method rq)) = true ->
    rq_content rq = Ok body ->
    format_post e (res_format r) body = Raise ex ->
    exists meth_name,
      render e r rq s =
      (b <- render_error r rq BAD_REQUEST "Malformed HTTP BODY"
              ("Failed parsing HTTP BODY" ++ NL ++ format_exc (tb_frames e) ex) ;;
       ret (Body b)) (primed r meth_name s).
Proof.
  intros e r rq s body ex Hm Hc Hb Hf.
  unfold resolved_method in Hc. unfold body_method in Hm. unfold render, primed.
  destruct (attr_truthy (lookup_attr r (REST_METHOD_PREFIX ++ rq_method rq))) eqn:E1.
  - destruct (lookup_attr r (REST_METHOD_PREFIX ++ rq_method rq)) as [[h|h|v]|] eqn:E2;
      try discriminate Hc;
      exists (REST_METHOD_PREFIX ++ rq_method rq);
      cbv [bind set_recursion setHeader set_method_called modify];
      rewrite ?E1, ?E2; simpl in Hm |- *; rewrite Hm, Hb, Hf; reflexivity.
  - destruct (lookup_attr r REST_METHOD) as [[h|h|v]|] eqn:E2;
      try discriminate Hc;
      exists REST_METHOD;
      cbv [bind set_recursion setHeader set_method_called modify];
      rewrite ?E1, ?E2; simpl in Hm |- *; rewrite Hm, Hb, Hf; reflexivity.
Qed.

(* ------------------------------------------------------------------------- *)
(** ** Byte-string lemmas *)

Lemma all_ascii_app : forall a b, all_ascii (a ++ b) = all_ascii a && all_ascii b.
Proof.
  induction a as [|c a IH]; intro b; simpl; [reflexivity|].
  rewrite IH, andb_assoc. reflexivity.
Qed.

Lemma first_non_ascii_none : forall s i, all_ascii s = true -> first_non_ascii i s = None.
Proof.
  induction s as [|c s IH]; intros i H; simpl in *; [reflexivity|].
  apply andb_prop in H as [Hc Hs]. rewrite Hc. apply IH, Hs.
Qed.

Lemma ascii_decode_ok : forall s, all_ascii s = true -> ascii_decode s = Ok s.
Proof. intros s H. unfold ascii_decode. rewrite first_non_ascii_none by exact H. reflexivity. Qed.

Lemma prefix_substring : forall p s,
  String.prefix p (substring 0 (String.length p) s) = String.prefix p s.
Proof.
  induction p as [|a p IH]; intro s; [destruct s; reflexivity|].
  destruct s as [|b s]; simpl; [reflexivity|].
  destruct (ascii_dec a b); [apply IH | reflexivity].
Qed.

Lemma prefix_app : forall p x, String.prefix p (p ++ x) = true.
Proof.
  induction p as [|a p IH]; intro x; [destruct x; reflexivity|].
  simpl. destruct (ascii_dec a a) as [_|n]; [apply IH | contradiction n; reflexivity].
Qed.

Lemma substring_all : forall x, substring 0 (String.length x) x = x.
Proof. induction x as [|c x IH]; simpl; [reflexivity | rewrite IH; reflexivity]. Qed.

Lemma substring_after_prefix : forall p x,
  substring (String.length p) (String.length (p ++ x) - String.length p) (p ++ x) = x.
Proof.
  induction p as [|a p IH]; intro x; simpl.
  - rewrite Nat.sub_0_r. apply substring_all.
  - apply IH.
Qed.

Lemma prefix_split : forall p n, String.prefix p n = true ->
  n = p ++ substring (String.length p) (String.length n - String.length p) n.
Proof.
  induction p as [|a p IH]; intros n H.
  - simpl. rewrite Nat.sub_0_r, substring_all. reflexivity.
  - destruct n as [|b n]; simpl in H; [discriminate|].
    destruct (ascii_dec a b) as [<-|]; [|discriminate].
    simpl. f_equal. apply IH, H.
Qed.

(* ------------------------------------------------------------------------- *)
(** ** C7: the fast pre-check rejects a malformed body before any parse *)

(** The first byte after leading whitespace is neither [{] nor [[] (or
    there is none). *)
Definition json_start_rejected (body : pystr) : Prop :=
  match lstrip body with
  | EmptyString => True
  | String c _ => c <> "{"%char /\ c <> "["%char
  end.

Definition xml_start_rejected (body : pystr) : Prop :=
  String.prefix "<?xml" (lstrip body) = false.

Definition start_rejected (f : fmt) (body : pystr) : Prop :=
  match f with
  | JsonFormat => json_start_rejected body
  | XmlFormat => xml_start_rejected body
  end.

Lemma json_precheck : forall body, json_start_rejected body ->
  exists ex, forall loads, json_format_post loads body = Raise ex.
Proof.
  unfold json_start_rejected, json_format_post. intros body H.
  destruct (lstrip body) as [|c rest]; simpl.
  - eexists; intro; reflexivity.
  - destruct H as [H1 H2].
    destruct (Ascii.eqb c "{") eqn:E1; [apply Ascii.eqb_eq in E1; contradiction|].
    destruct (Ascii.eqb c "[") eqn:E2; [apply Ascii.eqb_eq in E2; contradiction|].
    simpl. eexists; intro; reflexivity.
Qed.

Lemma xml_precheck : forall body, xml_start_rejected body ->
  exists ex, forall fromstring, xml_format_post fromstring body = Raise ex.
Proof.
  unfold xml_start_rejected, xml_format_post, slice_to. intros body H.
  change 5 with (String.length "<?xml"). rewrite prefix_substring, H.
  eexists; intro; reflexivity.
Qed.

Lemma format_post_precheck : forall e f body, start_rejected f body ->
  exists ex, format_post e f body = Raise ex.
Proof.
  intros e [] body H; simpl in H.
  - destruct (json_precheck body H) as [ex Hex]. exists ex. apply Hex.
  - destruct (xml_precheck body H) as [ex Hex]. exists ex. apply Hex.
Qed.

(** C7.  A body whose first non-whitespace byte is not [{] or [[] (JSON),
    or which does not start with [<?xml] after whitespace (XML), makes
    [_format_post] raise whatever the parser would do (the parser is never
    called); [render] then builds the [MalformedBody] page (400, "Malformed
    HTTP BODY") and invokes no handler and schedules nothing. *)
Theorem malformed_body_rejected_before_parse :
  (forall body, json_start_rejected body ->
     exists ex, forall loads, json_format_post loads body = Raise ex) /\
  (forall body, xml_start_rejected body ->
     exists ex, forall fromstring, xml_format_post fromstring body = Raise ex) /\
  (forall e r rq s body,
     body_method (rq_method rq) = true ->
     attr_callable (resolved_method r (rq_method rq)) = true ->
     rq_content rq = Ok body ->
     start_rejected (res_format r) body ->
     (exists ex meth_name,
        render e r rq s =
        (b <- render_error r rq BAD_REQUEST "Malformed HTTP BODY"
                ("Failed parsing HTTP BODY" ++ NL ++ format_exc (tb_frames e) ex) ;;
         ret (Body b)) (primed r meth_name s))
     /\ st_calls (snd (render e r rq s)) = st_calls s
     /\ st_later (snd (render e r rq s)) = st_later s).
Proof.
  split; [exact json_precheck|]. split; [exact xml_precheck|].
  intros e r rq s body Hm Hc Hb Hs.
  destruct (format_post_precheck e _ _ Hs) as [ex Hex].
  destruct (render_decode_failure e r rq s body ex Hm Hc Hb Hex) as [mn Hr].
  assert (Hq : quiet (b <- render_error r rq BAD_REQUEST "Malformed HTTP BODY"
                             ("Failed parsing HTTP BODY" ++ NL ++ format_exc (tb_frames e) ex) ;;
                      ret (Body b))) by auto with quiet_db.
  destruct (Hq (primed r mn s)) as (_ & _ & _ & Hcalls & Hlater & _).
  destruct (frame_primed r mn s) as (_ & _ & _ & Hcalls' & Hlater' & _).
  split; [exists ex, mn; exact Hr|].
  rewrite Hr. split; congruence.
Qed.

(* ------------------------------------------------------------------------- *)
(** ** C10: an empty or all-whitespace JSON body *)

(** C10.  A POST or PUT to a [JsonResource] whose callable handler is
    resolved, with a body that is empty or only whitespace: the pre-check's
    [body.lstrip()[0]] raises [IndexError] (not [ValueError]), the
    [except Exception] around [_format_post] catches it, and [render]
    returns the [MalformedBody] JSON page with status 400 without invoking
    the handler.  (The traceback printed into the page is ASCII whenever the
    stack frames are.) *)
Theorem empty_json_body_is_400 :
  forall e r rq s body,
    res_format r = JsonFormat ->
    body_method (rq_method rq) = true ->
    attr_callable (resolved_method r (rq_method rq)) = true ->
    rq_content rq = Ok body ->
    lstrip body = EmptyString ->
    all_ascii (tb_frames e) = true ->
    json_format_post (json_loads e) body = Raise (IndexError "string index out of range")
    /\ (exists b detail,
          fst (render e r rq s) = Ok (Body b)
          /\ Json.dumps true (Some 4)
               (json_error_doc BAD_REQUEST "Malformed HTTP BODY" detail) = Ok b)
    /\ st_code (snd (render e r rq s)) = BAD_REQUEST
    /\ st_calls (snd (render e r rq s)) = st_calls s.
Proof.
  intros e r rq s body Hf Hm Hc Hb Hws Hfr.
  assert (Hpost : json_format_post (json_loads e) body
                  = Raise (IndexError "string index out of range"))
    by (unfold json_format_post; rewrite Hws; reflexivity).
  split; [exact Hpost|].
  assert (Hfp : format_post e (res_format r) body
                = Raise (IndexError "string index out of range"))
    by (rewrite Hf; exact Hpost).
  destruct (render_decode_failure e r rq s body _ Hm Hc Hb Hfp) as [mn Hr].
  rewrite Hr.
  set (err := "Failed parsing HTTP BODY" ++ NL
              ++ format_exc (tb_frames e) (IndexError "string index out of range")).
  assert (Ha : all_ascii err = true)
    by (unfold err, format_exc; rewrite !all_ascii_app, Hfr; reflexivity).
  unfold render_error, ErrorPage_render. rewrite Hf. simpl ep_class.
  unfold JsonErrorPage_render. simpl ep_brief. simpl ep_detail. simpl ep_log.
  cbv [bind lift ret gets modify setResponseCode setHeader].
  rewrite (ascii_decode_ok err Ha). simpl.
  destruct (rq_displayTracebacks rq); simpl;
    (split; [eexists | split; reflexivity]).
  - exists (PStr err). split; reflexivity.
  - exists PNone. split; reflexivity.
Qed.

(* ------------------------------------------------------------------------- *)
(** ** C4: the payload of [UnsupportedMethod] *)

(** The payload [render] computes (lines 151-154). *)
Definition unsupported_payload (r : rest_resource) : list pyval :=
  match lookup_attr r "allowedMethods" with
  | Some (AData (PList l)) | Some (AData (PTuple l)) => l
  | _ => _allowed_methods r
  end.

Lemma in_dedup : forall x l, In x (dedup l) <-> In x l.
Proof.
  intros x l; induction l as [|a l IH]; simpl; [tauto|].
  rewrite filter_In, IH. split.
  - intros [H|[H _]]; [left; exact H | right; exact H].
  - intros [H|H]; [left; exact H|].
    destruct (String.eqb_spec x a) as [->|Hne]; [left; reflexivity|].
    right. split; [exact H|]. reflexivity.
Qed.

Lemma NoDup_dedup : forall l, NoDup (dedup l).
Proof.
  induction l as [|a l IH]; simpl; constructor.
  - rewrite filter_In. intros [_ H]. cbv beta in H. rewrite String.eqb_refl in H. discriminate H.
  - apply NoDup_filter, IH.
Qed.

Lemma in_prefixedMethodNames : forall r p x,
  In x (prefixedMethodNames r p)
  <-> x <> EmptyString /\ exists h, In (p ++ x, AFunc h) (res_attrs r).
Proof.
  intros r p x. unfold prefixedMethodNames. rewrite in_dedup, in_flat_map. split.
  - intros [[n a] [Hin Hx]]. simpl in Hx.
    destruct a as [h|h|v]; try contradiction.
    match type of Hx with
    | In _ (if ?c then _ else _) => destruct c eqn:E; [|contradiction]
    end.
    destruct Hx as [<-|[]]. apply andb_prop in E as [E1 E2]. split.
    + intro H0. rewrite H0 in E2. discriminate E2.
    + exists h. rewrite <- (prefix_split p n E1). exact Hin.
  - intros [Hne [h Hin]]. exists (p ++ x, AFunc h). split; [exact Hin|].
    simpl. rewrite prefix_app, substring_after_prefix.
    destruct x as [|c x]; [contradiction Hne; reflexivity|]. left; reflexivity.
Qed.

Lemma append_ascii_names_all : forall names acc,
  Forall (fun n => all_ascii n = true) names ->
  append_ascii_names acc names = (acc ++ map PStr names)%list.
Proof.
  induction names as [|n ns IH]; intros acc H; simpl.
  - rewrite app_nil_r. reflexivity.
  - inversion H as [|? ? Hn Hns]; subst.
    rewrite (ascii_decode_ok n Hn), IH by exact Hns.
    rewrite <- app_assoc. reflexivity.
Qed.

(** With neither [rest_<METHOD>] nor [rest], [render] raises
    [UnsupportedMethod] with [unsupported_payload r] as payload. *)
Lemma render_unsupported : forall e r rq s,
  attr_truthy (lookup_attr r (REST_METHOD_PREFIX ++ rq_method rq)) = false ->
  attr_truthy (lookup_attr r REST_METHOD) = false ->
  exists s', render e r rq s = (Raise (UnsupportedMethod (unsupported_payload r)), s').
Proof.
  intros e r rq s H1 H2. unfold render.
  cbv [bind set_recursion setHeader modify]. rewrite H1. simpl. rewrite H2. simpl.
  eexists. reflexivity.
Qed.

(** What Twisted's [Request.render] does once [render] has raised
    [UnsupportedMethod]. *)
Lemma request_render_unsupported : forall e rq i r s p s1,
  heap e i = Some (ORest r) ->
  render e r rq s = (Raise (UnsupportedMethod p), s1) ->
  request_render e rq (PObj i) s =
  (if String.eqb (rq_method rq) "HEAD" && existsb is_GET p
   then fake_head e rq (PObj i)
   else b <- unsupported_page rq p ;; finish_body rq (Body b)) s1.
Proof.
  intros e rq i r s p s1 Hh Hr.
  unfold request_render, catch_unsupported, resource_render, bind at 1.
  rewrite Hh, Hr. reflexivity.
Qed.

(** Computations that keep the status code and some headers. *)
Definition keeps (c : Z) (kvs : list (pystr * pystr)) (s : req_state) : Prop :=
  st_code s = c /\ Forall (fun kv => In kv (st_headers s)) kvs.

Definition preserves {A} (P : req_state -> Prop) (m : M A) : Prop :=
  forall s, P s -> P (snd (m s)).

Lemma preserves_bind : forall A B P (m : M A) (k : A -> M B),
  preserves P m -> (forall a, preserves P (k a)) -> preserves P (bind m k).
Proof.
  intros A B P m k Hm Hk s Hs. unfold bind. specialize (Hm s Hs).
  destruct (m s) as [[a|ex] s1]; simpl in *; [apply Hk|]; exact Hm.
Qed.

Lemma preserves_ret : forall A P (a : A), preserves P (ret a).
Proof. intros A P a s H; exact H. Qed.

Lemma preserves_if : forall A P (b : bool) (m1 m2 : M A),
  preserves P m1 -> preserves P m2 -> preserves P (if b then m1 else m2).
Proof. intros A P [] m1 m2 H1 H2; assumption. Qed.

Lemma preserves_write : forall c kvs b, preserves (keeps c kvs) (write b).
Proof.
  intros c kvs b s Hs. unfold write.
  destruct (st_fake_head s); [exact Hs|].
  destruct (st_finished s); [exact Hs|].
  destruct (st_disconnected s); [exact Hs|]. exact Hs.
Qed.

Lemma preserves_finish : forall c kvs, preserves (keeps c kvs) finish.
Proof.
  intros c kvs s Hs. unfold finish.
  destruct (st_disconnected s); [exact Hs|].
  destruct (st_finished s); exact Hs.
Qed.

Lemma preserves_setHeader : forall c kvs k v,
  Forall (fun kv => fst kv <> k) kvs -> preserves (keeps c kvs) (setHeader k v).
Proof.
  intros c kvs k v Hk s [Hc Hs]. split; [exact Hc|]. simpl.
  rewrite Forall_forall in Hk, Hs |- *. intros kv Hin. specialize (Hk kv).
  right. apply filter_In. split; [apply Hs, Hin|].
  apply String.eqb_neq in Hk; [|exact Hin].
  change (negb (String.eqb (fst kv) k) = true). rewrite Hk. reflexivity.
Qed.

Lemma preserves_finish_body : forall c kvs rq body,
  Forall (fun kv => fst kv <> "content-length") kvs ->
  preserves (keeps c kvs) (finish_body rq body).
Proof.
  intros c kvs rq body Hk. destruct body as [|b]; simpl; [apply preserves_ret|].
  assert (Hs : preserves (keeps c kvs) (setHeader "content-length" (nat_repr (String.length b))))
    by (apply preserves_setHeader; exact Hk).
  apply preserves_if; (apply preserves_bind; [|intros _; apply preserves_bind;
                        [apply preserves_write | intros _; apply preserves_finish]]).
  - apply preserves_if; [exact Hs | apply preserves_ret].
  - exact Hs.
Qed.

Lemma native_items_str_items : forall l names,
  native_items l = Ok names -> str_items l = Ok names.
Proof.
  induction l as [|v l IH]; intros names H; simpl in H |- *; [exact H|].
  destruct v; simpl in H; try discriminate H.
  destruct (ascii_decode s); simpl in H; [|discriminate H].
  destruct (native_items l) as [xs|]; simpl in H; [|discriminate H].
  injection H as <-. rewrite (IH xs eq_refl). reflexivity.
Qed.

Lemma twisted_ErrorPage_render_state : forall code brief detail s,
  exists b, twisted_ErrorPage_render code brief detail s =
    (Ok b, snd (setHeader "content-type" "text/html; charset=utf-8"
                  (snd (setResponseCode code s)))).
Proof. intros. eexists. reflexivity. Qed.

Lemma unsupported_page_501 : forall rq p s,
  existsb (String.eqb (rq_method rq)) supportedMethods = false ->
  exists b s0, unsupported_page rq p s = (Ok b, s0) /\ keeps NOT_IMPLEMENTED [] s0.
Proof.
  intros rq p s Hns. unfold unsupported_page. rewrite Hns.
  destruct (twisted_ErrorPage_render_state NOT_IMPLEMENTED "Huh?"
    ("I don't know how to treat a " ++ html_escape (latin1_to_utf8 (rq_method rq))
     ++ " request.") s) as [b Hb].
  rewrite Hb. do 2 eexists. split; [reflexivity|]. split; [reflexivity | constructor].
Qed.

Lemma unsupported_page_405 : forall rq p s names,
  existsb (String.eqb (rq_method rq)) supportedMethods = true ->
  all_ascii (rq_uri rq) = true -> all_ascii (rq_method rq) = true ->
  native_items p = Ok names ->
  exists b s0, unsupported_page rq p s = (Ok b, s0)
    /\ keeps NOT_ALLOWED [("Allow", Json.join_py ", " names)] s0.
Proof.
  intros rq p s names Hsup Hu Hma Hn. unfold unsupported_page. rewrite Hsup.
  cbv [bind lift setHeader modify].
  rewrite (native_items_str_items _ _ Hn).
  unfold nativeString at 1 2. rewrite (ascii_decode_ok _ Hu), (ascii_decode_ok _ Hma).
  cbv [py_bind]. cbv beta iota. rewrite Hn. cbv beta iota.
  match goal with |- context [twisted_ErrorPage_render ?c ?br ?d ?s1] =>
    destruct (twisted_ErrorPage_render_state c br d s1) as [b Hb]; rewrite Hb
  end.
  do 2 eexists. split; [reflexivity|]. split; [reflexivity|].
  constructor; [|constructor].
  cbn. right. left. reflexivity.
Qed.

(** C4 (amended).  When a request's method has neither [rest_<METHOD>] nor
    [rest], [render] raises [UnsupportedMethod].  Its payload is the
    resource's [allowedMethods] attribute when that is a list or tuple;
    otherwise, provided the names of the class's [rest_] methods are ASCII,
    it is [HEAD] followed by the verbs [V], each once and none empty, for
    which the class or a base defines a function [rest_V].  Twisted answers
    with 405 and an [Allow] header listing the payload for GET and POST
    (and for HEAD when GET is not in the payload), given an ASCII URI and a
    payload of ASCII strings; for a method other than GET, HEAD and POST it
    answers 501. *)
Theorem unsupported_method_payload :
  forall e r rq s,
    attr_truthy (lookup_attr r (REST_METHOD_PREFIX ++ rq_method rq)) = false ->
    attr_truthy (lookup_attr r REST_METHOD) = false ->
    Forall (fun n => all_ascii n = true) (prefixedMethodNames r REST_METHOD_PREFIX) ->
    exists payload s',
      render e r rq s = (Raise (UnsupportedMethod payload), s') /\
      match lookup_attr r "allowedMethods" with
      | Some (AData (PList l)) | Some (AData (PTuple l)) => payload = l
      | _ =>
          exists names,
            payload = PStr "HEAD" :: map PStr names /\ NoDup names
            /\ forall x, In x names <->
                 x <> EmptyString /\ exists h, In ("rest_" ++ x, AFunc h) (res_attrs r)
      end
      /\ forall i, heap e i = Some (ORest r) ->
         let s'' := snd (request_render e rq (PObj i) s) in
         (existsb (String.eqb (rq_method rq)) supportedMethods = false ->
          st_code s'' = NOT_IMPLEMENTED)
         /\ (forall names,
               rq_method rq = "GET" \/ rq_method rq = "POST"
               \/ (rq_method rq = "HEAD" /\ existsb is_GET payload = false) ->
               all_ascii (rq_uri rq) = true ->
               native_items payload = Ok names ->
               st_code s'' = NOT_ALLOWED
               /\ In ("Allow", Json.join_py ", " names) (st_headers s'')).
Proof.
  intros e r rq s H1 H2 Hascii.
  destruct (render_unsupported e r rq s H1 H2) as [s' Hr].
  exists (unsupported_payload r), s'. split; [exact Hr|]. split.
  - unfold unsupported_payload.
    assert (Hdef : _allowed_methods r
                   = PStr "HEAD" :: map PStr (prefixedMethodNames r REST_METHOD_PREFIX))
      by (unfold _allowed_methods; rewrite append_ascii_names_all by exact Hascii;
          reflexivity).
    destruct (lookup_attr r "allowedMethods") as [[h|h|[]]|];
      try reflexivity; rewrite Hdef;
      exists (prefixedMethodNames r REST_METHOD_PREFIX);
      (split; [reflexivity|]); (split; [apply NoDup_dedup|]);
      intro x; apply in_prefixedMethodNames.
  - intros i Hh. rewrite (request_render_unsupported e rq i r s _ s' Hh Hr). split.
    + intro Hns.
      assert (Hnh : String.eqb (rq_method rq) "HEAD" = false)
        by (destruct (String.eqb (rq_method rq) "HEAD") eqn:E; [|reflexivity];
            apply String.eqb_eq in E; rewrite E in Hns; discriminate Hns).
      rewrite Hnh. cbn [andb].
      destruct (unsupported_page_501 rq (unsupported_payload r) s' Hns) as [b [s0 [Hp Hk]]].
      unfold bind at 1. rewrite Hp.
      exact (proj1 (preserves_finish_body NOT_IMPLEMENTED [] rq (Body b)
                      (Forall_nil _) s0 Hk)).
    + intros names Hm Hu Hn.
      assert (Hsup : existsb (String.eqb (rq_method rq)) supportedMethods = true)
        by (destruct Hm as [->|[->|[-> _]]]; reflexivity).
      assert (Hif : String.eqb (rq_method rq) "HEAD" && existsb is_GET (unsupported_payload r)
                    = false)
        by (destruct Hm as [->|[->|[-> ->]]]; reflexivity).
      assert (Hma : all_ascii (rq_method rq) = true)
        by (destruct Hm as [->|[->|[-> _]]]; reflexivity).
      rewrite Hif.
      destruct (unsupported_page_405 rq (unsupported_payload r) s' names Hsup Hu Hma Hn)
        as [b [s0 [Hp Hk]]].
      unfold bind. rewrite Hp.
      destruct (preserves_finish_body NOT_ALLOWED [("Allow", Json.join_py ", " names)]
                  rq (Body b) ltac:(repeat constructor; discriminate) s0 Hk) as [Hc Hin].
      split; [exact Hc | exact (Forall_inv Hin)].
Qed.

Definition res_allowed_override : rest_resource :=
  mkJsonRes [("rest_GET", AFunc 0);
             ("allowedMethods", AData (PList [PStr "GET"; PStr "POST"]))].

Definition DELETE : request := mkRequest "DELETE" "/" (Ok EmptyString) false.

(** C4 counterexample.  A resource with only [rest_GET] and the class
    attribute [allowedMethods = ['GET', 'POST']]: a DELETE gets the payload
    [['GET', 'POST']], which names POST (no [rest_POST] exists) and omits
    HEAD.  Nor is the answer to a DELETE a 405: for a resource with only
    [rest_GET], Twisted answers 501, DELETE being outside
    [supportedMethods]. *)
Lemma unsupported_payload_override :
  fst (render env1 res_allowed_override DELETE init_state)
    = Raise (UnsupportedMethod [PStr "GET"; PStr "POST"])
  /\ ~ In (PStr "HEAD") [PStr "GET"; PStr "POST"]
  /\ lookup_attr res_allowed_override "rest_POST" = None
  /\ st_code (run_request env1 DELETE (PObj 0) 3) = NOT_IMPLEMENTED.
Proof.
  split; [vm_compute; reflexivity|]. split; [|split; vm_compute; reflexivity].
  simpl. intros [H|[H|[]]]; inversion H.
Qed.

(* ------------------------------------------------------------------------- *)
(** ** C2: nested resources and the recursion bound *)

(** [n + 1] JSON resources: the [rest_GET] of resource [i] returns resource
    [i + 1] for [i < n]; the last one returns [{"a": 1}]. *)
Definition chain_env (n : nat) : env :=
  mkEnv (fun i => if Nat.leb i n then Some (ORest (mkJsonRes [("rest_GET", AFunc i)]))
                  else None)
        (fun i _ => if Nat.ltb i n then Ok (PObj (S i)) else Ok val_a1)
        (fun _ => Ok PNone)
        (fun _ => Ok (Elem "a" None [] None))
        sample_frames no_codec.

Definition body_a1 : pystr := "{" ++ QUOTE ++ "a" ++ QUOTE ++ ": 1}".

(** C2.  A handler chain that returns a nested resource six times (more
    than [RECURSION_DEPTH] = 5) completes normally: each nested render runs
    on a later reactor tick, the final value is written with status 200, and
    [request.recursion], reset to 0 by every [RestResource.render], never
    exceeds 1. *)
Lemma nested_chain_six_completes :
  let s := run_request (chain_env 6) (GET false) (PObj 0) 10 in
  st_written s = [body_a1] /\ st_code s = 200%Z /\ st_finished s = true
  /\ st_recursion s = 0 /\ List.length (st_calls s) = 7.
Proof. vm_compute. repeat split; reflexivity. Qed.

(** The bound's branch itself, were the counter to reach 5: [on_response]
    raises [NameError] (the name [failure] is not imported), which the
    errback turns into a 500 "Unhandled Error" page. *)
Lemma recursion_branch_raises_NameError :
  let r := mkJsonRes [("rest_GET", AFunc 0)] in
  let s := mkState 200 [] [] false 0 5 "rest_GET" [] [] false false in
  fst (on_response (chain_env 6) r (GET false) (PObj 1) s)
    = Raise (NameError "global name 'failure' is not defined")
  /\ st_code (snd (try_except (on_response (chain_env 6) r (GET false) (PObj 1))
                     (on_failure (chain_env 6) r (GET false)) s)) = 500%Z.
Proof. vm_compute. split; reflexivity. Qed.

(* ------------------------------------------------------------------------- *)
(** ** C3: a decode failure on a body with a byte above 0x7f *)

(** The UTF-8 encoding of U+00E9. *)
Definition body_e_acute : pystr := String (chr 195) (String (chr 169) EmptyString).

Definition env_post : env :=
  mkEnv (fun i => match i with
                  | 0 => Some (ORest (mkJsonRes [("rest_POST", AFunc 0)]))
                  | _ => None end)
        (fun _ _ => Ok val_a1) (fun _ => Ok PNone)
        (fun _ => Ok (Elem "a" None [] None)) sample_frames no_codec.

(** C3.  POST of the body "é" to a [JsonResource] with [rest_POST]: the
    pre-check raises [ValueError] whose message quotes the body; the
    [MalformedBody] page then calls [unicode(self.detail)] on the traceback,
    which raises [UnicodeDecodeError]; [render] propagates it and Twisted's
    [processingFailed] answers 500.  The handler is not invoked. *)
Lemma malformed_non_ascii_body_is_500 :
  fst (render env_post (mkJsonRes [("rest_POST", AFunc 0)]) (POST body_e_acute false)
          init_state) = Raise (UnicodeDecodeError 162)
  /\ st_code (run_request env_post (POST body_e_acute false) (PObj 0) 3) = 500%Z
  /\ st_calls (run_request env_post (POST body_e_acute false) (PObj 0) 3) = [].
Proof. vm_compute. repeat split; reflexivity. Qed.

(* ------------------------------------------------------------------------- *)
(** ** C5: HEAD requests *)

Definition res_catch_all : rest_resource := mkJsonRes [("rest", AFunc 0)].

Definition HEAD : request := mkRequest "HEAD" "/" (Ok EmptyString) false.

Definition env_catch_all : env :=
  mkEnv (fun i => match i with 0 => Some (ORest res_catch_all) | _ => None end)
        (fun _ _ => Ok val_a1) (fun _ => Ok PNone)
        (fun _ => Ok (Elem "a" None [] None)) sample_frames no_codec.

(** C5.  [RestResource] overrides [render], which Twisted calls for every
    method, so [render_HEAD] is never reached: a HEAD to a resource with the
    catch-all [rest] and no [rest_HEAD] primes the headers, resolves [rest]
    and invokes it. *)
Lemma head_invokes_catch_all :
  let s := run_request env_catch_all HEAD (PObj 0) 3 in
  st_calls s = [("rest", [])]
  /\ st_method_called s = "rest"
  /\ In ("accept", json_ACCEPT_HEADER) (st_headers s).
Proof. vm_compute. repeat split; auto 10. Qed.

(* ------------------------------------------------------------------------- *)
(** ** C6: the decoded body handed to the handler *)

Definition res_xml_post : rest_resource := mkXmlRes [("rest_POST", AFunc 0)].

Definition xml_body : pystr := "<?xml version='1.0'?><a/>".

Definition env_xml : env :=
  mkEnv (fun i => match i with 0 => Some (ORest res_xml_post) | _ => None end)
        (fun _ _ => Ok (PElement (Elem "ok" None [] None))) (fun _ => Ok PNone)
        (fun b => if String.eqb b xml_body then Ok (Elem "a" None [] None)
                  else Raise (OtherError "XMLSyntaxError" "parse error"))
        sample_frames no_codec.

(** C6.  [XmlResource._format_post] parses a well-formed body into
    [body_data] and then falls off its end: it returns [None], and
    [rest_POST] receives [None] instead of the element tree. *)
Lemma xml_post_hands_None :
  xml_fromstring env_xml xml_body = Ok (Elem "a" None [] None)
  /\ xml_format_post (xml_fromstring env_xml) xml_body = Ok PNone
  /\ st_calls (run_request env_xml (POST xml_body false) (PObj 0) 3)
       = [("rest_POST", [PNone])].
Proof. vm_compute. repeat split; reflexivity. Qed.

(** X15.  When the first non-whitespace byte of a body is [{] or [[],
    [JsonResource._format_post] returns exactly what [json.loads] parses
    from the whole body. *)
Lemma json_post_returns_parsed_value : forall loads body c rest v,
  lstrip body = String c rest -> (c = "{"%char \/ c = "["%char) ->
  loads body = Ok v -> json_format_post loads body = Ok v.
Proof.
  intros loads body c rest v Hl Hc Hv. unfold json_format_post. rewrite Hl. simpl.
  destruct Hc as [-> | ->]; simpl; rewrite Hv; reflexivity.
Qed.

(** X3.  For a POST or PUT whose resolved handler is callable, whose body
    is read and decoded by [_format_post] without error, [render] primes the
    request (recursion counter, [accept] and [content-type] headers,
    [method_called]) and then runs the handler with the decoded value as its
    argument after [request], and returns [NOT_DONE_YET]. *)
Lemma render_passes_decoded :
  forall e r rq s body h d,
    body_method (rq_method rq) = true ->
    (resolved_method r (rq_method rq) = Some (AFunc h)
     \/ resolved_method r (rq_method rq) = Some (ACallable h)) ->
    rq_content rq = Ok body ->
    format_post e (res_format r) body = Ok d ->
    exists meth_name,
      render e r rq s
      = (_ <- run_handler e r rq meth_name h [d] ;; ret NOT_DONE_YET) (primed r meth_name s).
Proof.
  intros e r rq s body h d Hm Hh Hb Hf.
  unfold resolved_method in Hh. unfold body_method in Hm. unfold render, primed.
  destruct (attr_truthy (lookup_attr r (REST_METHOD_PREFIX ++ rq_method rq))) eqn:E1.
  - exists (REST_METHOD_PREFIX ++ rq_method rq).
    cbv [bind set_recursion setHeader set_method_called modify].
    destruct Hh as [Hh|Hh]; rewrite Hh; simpl in Hm |- *;
      rewrite Hm, Hb, Hf; reflexivity.
  - exists REST_METHOD.
    cbv [bind set_recursion setHeader set_method_called modify].
    destruct Hh as [Hh|Hh]; rewrite Hh; simpl in Hm |- *;
      rewrite Hm, Hb, Hf; reflexivity.
Qed.

(* ------------------------------------------------------------------------- *)
(** ** C8: exposure of [detail] in error pages *)

Lemma ascii_decode_same : forall s s', ascii_decode s = Ok s' -> s' = s.
Proof.
  unfold ascii_decode. intros s s'. destruct (first_non_ascii 0 s); congruence.
Qed.

(** X13.  An error page built with [log=False], as the engine builds
    them, leaves [detail] out when the site does not display tracebacks:
    the JSON page has [null] for it, the XML page an empty [detail]
    element. *)
Lemma error_pages_hide_detail_without_log : forall rq ep s out,
  rq_displayTracebacks rq = false -> ep_log ep = false ->
  fst (ErrorPage_render rq ep s) = Ok out ->
  match ep_class ep with
  | JsonErrorPage =>
      Json.dumps true (Some 4) (json_error_doc (ep_code ep) (ep_brief ep) PNone) = Ok out
  | XmlErrorPage =>
      out = Lxml.tostring_pretty
              (xml_error_tree (Some (z_repr (ep_code ep))) (Some (ep_brief ep)) None)
  end.
Proof.
  intros rq ep s out Hdt Hlog H. unfold ErrorPage_render in H |- *.
  destruct (ep_class ep).
  - unfold JsonErrorPage_render in H.
    cbv [bind lift ret gets modify setResponseCode setHeader] in H.
    rewrite Hdt, Hlog in H.
    destruct (ascii_decode (ep_brief ep)) as [b|] eqn:Eb; [|discriminate H].
    destruct (ascii_decode (ep_detail ep)) as [d|] eqn:Ed; [|discriminate H].
    apply ascii_decode_same in Eb. subst b. exact H.
  - unfold XmlErrorPage_render in H.
    cbv [bind lift ret gets modify setResponseCode setHeader] in H.
    rewrite Hdt, Hlog in H. simpl in H.
    unfold Lxml.set_text in H.
    destruct (Lxml.text_ok (z_repr (ep_code ep))); [|discriminate H].
    destruct (Lxml.text_ok (ep_brief ep)); [|discriminate H].
    simpl in H. congruence.
Qed.

Definition boom_page : error_page :=
  mkErrorPage XmlErrorPage 500 "Unhandled Error" "boom" true.

(** C8.  [XmlErrorPage(500, 'Unhandled Error', 'boom')] with its default
    [log=True], rendered for a site whose [displayTracebacks] is off: the
    logging branch reassigns [detail] to the normalised [self.detail], so
    the page shows [<detail>boom</detail>]; [JsonErrorPage] in the same
    situation shows [null]. *)
Lemma xml_error_page_log_exposes_detail :
  fst (XmlErrorPage_render (GET false) boom_page init_state)
    = Ok ("<ErrorPage>" ++ NL ++ "    <code>500</code>" ++ NL
          ++ "    <brief>Unhandled Error</brief>" ++ NL
          ++ "    <detail>boom</detail>" ++ NL ++ "</ErrorPage>" ++ NL)
  /\ fst (JsonErrorPage_render (GET false)
            (mkErrorPage JsonErrorPage 500 "Unhandled Error" "boom" true)
            init_state)
     = Json.dumps true (Some 4) (json_error_doc 500 "Unhandled Error" PNone).
Proof. vm_compute. split; reflexivity. Qed.

(* ------------------------------------------------------------------------- *)
(** ** C9: determinism of the JSON encoder *)

(** Two dicts equal as mappings, iterated in different orders (in CPython
    2.7 [{0: 1, 8: 2}] and [{8: 2, 0: 1}]: keys 0 and 8 share a slot of the
    8-slot table, so the one inserted first comes first). *)
Definition dict_0_8 : pyval := PDict [(PInt 0, PInt 1); (PInt 8, PInt 2)].
Definition dict_8_0 : pyval := PDict [(PInt 8, PInt 2); (PInt 0, PInt 1)].

(** C9.  [_format_response] calls [json.dumps] without [sort_keys], so it
    emits items in iteration order: the two dicts encode to different bytes,
    while the sorted encoding used by [JsonErrorPage] agrees on both.  A NaN
    is rejected with [ValueError]. *)
Lemma json_encode_follows_iteration_order :
  json_format_response dict_0_8
    = Ok ("{" ++ QUOTE ++ "0" ++ QUOTE ++ ": 1, " ++ QUOTE ++ "8" ++ QUOTE ++ ": 2}")
  /\ json_format_response dict_8_0
    = Ok ("{" ++ QUOTE ++ "8" ++ QUOTE ++ ": 2, " ++ QUOTE ++ "0" ++ QUOTE ++ ": 1}")
  /\ json_format_response dict_0_8
     <> json_format_response dict_8_0
  /\ Json.dumps true None dict_0_8 = Json.dumps true None dict_8_0
  /\ json_format_response (PDict [(PStr "x", PFloat FNaN)])
     = Raise (ValueError "Out of range float values are not JSON compliant").
Proof.
  split; [reflexivity|]. split; [reflexivity|]. split.
  - vm_compute. intro H. discriminate H.
  - split; reflexivity.
Qed.

(* ------------------------------------------------------------------------- *)
(** ** Instances of the theorems' hypotheses *)

Definition res_get : rest_resource := mkJsonRes [("rest_GET", AFunc 0)].
Definition res_post : rest_resource := mkJsonRes [("rest_POST", AFunc 0)].
Definition finished_state : req_state :=
  mkState 200 [] [] true 1 0 "rest_GET" [] [] false false.

Lemma finished_request_never_written_witness :
  st_finished finished_state = true /\
  (forall v, on_response env1 res_get (GET false) v finished_state = (Ok tt, finished_state)) /\
  (forall f, let s' := snd (on_failure env1 res_get (GET false) f finished_state) in
             st_written s' = st_written finished_state
             /\ st_finish_calls s' = st_finish_calls finished_state
             /\ st_finished s' = true).
Proof.
  split; [reflexivity|].
  apply (finished_request_never_written env1 res_get (GET false) finished_state).
  reflexivity.
Defined.

Lemma unsupported_method_payload_witness :
  attr_truthy (lookup_attr res_get (REST_METHOD_PREFIX ++ rq_method DELETE)) = false /\
  attr_truthy (lookup_attr res_get REST_METHOD) = false /\
  Forall (fun n => all_ascii n = true) (prefixedMethodNames res_get REST_METHOD_PREFIX) /\
  exists payload s',
    render env1 res_get DELETE init_state = (Raise (UnsupportedMethod payload), s') /\
    match lookup_attr res_get "allowedMethods" with
    | Some (AData (PList l)) | Some (AData (PTuple l)) => payload = l
    | _ =>
        exists names,
          payload = PStr "HEAD" :: map PStr names /\ NoDup names
          /\ forall x, In x names <->
               x <> EmptyString /\ exists h, In ("rest_" ++ x, AFunc h) (res_attrs res_get)
    end
    /\ forall i, heap env1 i = Some (ORest res_get) ->
       let s'' := snd (request_render env1 DELETE (PObj i) init_state) in
       (existsb (String.eqb (rq_method DELETE)) supportedMethods = false ->
        st_code s'' = NOT_IMPLEMENTED)
       /\ (forall names,
             rq_method DELETE = "GET" \/ rq_method DELETE = "POST"
             \/ (rq_method DELETE = "HEAD" /\ existsb is_GET payload = false) ->
             all_ascii (rq_uri DELETE) = true ->
             native_items payload = Ok names ->
             st_code s'' = NOT_ALLOWED
             /\ In ("Allow", Json.join_py ", " names) (st_headers s'')).
Proof.
  assert (Hf : Forall (fun n => all_ascii n = true)
                 (prefixedMethodNames res_get REST_METHOD_PREFIX))
    by (vm_compute; repeat constructor).
  split; [reflexivity|]. split; [reflexivity|]. split; [exact Hf|].
  apply (unsupported_method_payload env1 res_get DELETE init_state);
    [reflexivity | reflexivity | exact Hf].
Defined.

Lemma malformed_body_rejected_before_parse_witness :
  body_method (rq_method (POST "x" false)) = true /\
  attr_callable (resolved_method res_post (rq_method (POST "x" false))) = true /\
  rq_content (POST "x" false) = Ok "x" /\
  start_rejected (res_format res_post) "x" /\
  (exists ex meth_name,
     render env_post res_post (POST "x" false) init_state =
     (b <- render_error res_post (POST "x" false) BAD_REQUEST "Malformed HTTP BODY"
             ("Failed parsing HTTP BODY" ++ NL ++ format_exc (tb_frames env_post) ex) ;;
      ret (Body b)) (primed res_post meth_name init_state))
  /\ st_calls (snd (render env_post res_post (POST "x" false) init_state)) = st_calls init_state
  /\ st_later (snd (render env_post res_post (POST "x" false) init_state)) = st_later init_state.
Proof.
  assert (Hr : start_rejected (res_format res_post) "x")
    by (vm_compute; split; intro H; discriminate H).
  split; [reflexivity|]. split; [reflexivity|]. split; [reflexivity|].
  split; [exact Hr|].
  destruct malformed_body_rejected_before_parse as [_ [_ H3]].
  apply (H3 env_post res_post (POST "x" false) init_state "x");
    [reflexivity | reflexivity | reflexivity | exact Hr].
Defined.

Lemma empty_json_body_is_400_witness :
  res_format res_post = JsonFormat /\
  body_method (rq_method (POST "  " false)) = true /\
  attr_callable (resolved_method res_post (rq_method (POST "  " false))) = true /\
  rq_content (POST "  " false) = Ok "  " /\
  lstrip "  " = EmptyString /\
  all_ascii (tb_frames env_post) = true /\
  json_format_post (json_loads env_post) "  " = Raise (IndexError "string index out of range")
  /\ (exists b detail,
        fst (render env_post res_post (POST "  " false) init_state) = Ok (Body b)
        /\ Json.dumps true (Some 4)
             (json_error_doc BAD_REQUEST "Malformed HTTP BODY" detail) = Ok b)
  /\ st_code (snd (render env_post res_post (POST "  " false) init_state)) = BAD_REQUEST
  /\ st_calls (snd (render env_post res_post (POST "  " false) init_state)) = st_calls init_state.
Proof.
  do 6 (split; [reflexivity|]).
  apply (empty_json_body_is_400 env_post res_post (POST "  " false) init_state "  ");
    reflexivity.
Defined.
(* ------------------------------------------------------------------------- *)
(** ** Further properties of the code *)

Lemma frame_one_write : forall s s', frame s s' -> one_write s s'.
Proof. intros s s' (Hw & Hf & Hc & _). left; auto. Qed.

Lemma one_write_frame_l : forall s1 s2 s3,
  frame s1 s2 -> one_write s2 s3 -> one_write s1 s3.
Proof.
  intros s1 s2 s3 (Hw & Hf & Hc & _) [(Hw' & Hc' & Hf') | (b & Hw' & Hc' & Hf')].
  - left; repeat split; congruence.
  - right; exists b; repeat split; congruence.
Qed.

Ltac quiet_step :=
  match goal with
  | |- context [render_error ?a ?b ?c ?d ?f ?s] =>
      let Hq := fresh "Hq" in
      pose proof (quiet_render_error a b c d f s) as Hq;
      destruct (render_error a b c d f s) as [[?b|?ex] ?s1];
      cbn [fst snd] in Hq |- *
  end.

(** Rewrite the connection state and [finished] of the states in the goal
    with the equations at hand. *)
Ltac live_rewrite :=
  repeat match goal with
         | H : st_fake_head ?x = _ |- context [st_fake_head ?x] => rewrite H
         | H : st_disconnected ?x = _ |- context [st_disconnected ?x] => rewrite H
         | H : st_finished ?x = _ |- context [st_finished ?x] => rewrite H
         end; cbn.

Ltac close_frame :=
  match goal with
  | Hq : frame ?s ?s1 |- _ =>
      destruct Hq as (?Hw & ?Hfin & ?Hfc & ?Hc & ?Hl & ?Hdc & ?Hfk)
  end;
  cbn in *; live_rewrite;
  first [ repeat split; cbn; congruence
        | split; [left; repeat split; cbn; congruence | cbn; congruence]
        | split; [right; eexists; split;
                  [cbn; match goal with H : st_written _ = _ |- _ => rewrite H end; reflexivity
                  | split; cbn; congruence]
                 | cbn; congruence] ].

Lemma on_response_one_write : forall e r rq v s,
  st_disconnected s = false -> st_fake_head s = false ->
  let res := on_response e r rq v s in
  match fst res with
  | Ok _ => one_write s (snd res) /\ st_calls (snd res) = st_calls s
  | Raise _ => frame s (snd res)
  end.
Proof.
  intros e r rq v s Hd Hk res. unfold res, on_response.
  cbv [bind gets ret try_except lift throw set_recursion call_later setHeader write finish
       append_written modify].
  destruct (st_finished s) eqn:Hf; [cbn; split; [left; auto | reflexivity]|].
  destruct (HANDLE_TYPES (res_format r) v).
  - destruct (format_response e (res_format r) v (res_encoding r)) as [rstr|ex].
    + cbn. rewrite Hk, Hf, Hd. cbn. split; [right; exists rstr; auto | reflexivity].
    + quiet_step; close_frame.
  - destruct (is_resource e v).
    + destruct (Nat.leb RECURSION_DEPTH (st_recursion s)); cbn.
      * apply frame_refl.
      * split; [left; auto | reflexivity].
    + quiet_step; close_frame.
Qed.

Lemma on_failure_one_write : forall e r rq f s,
  st_disconnected s = false -> st_fake_head s = false ->
  let res := on_failure e r rq f s in
  match fst res with
  | Ok _ => one_write s (snd res) /\ st_calls (snd res) = st_calls s
  | Raise _ => frame s (snd res)
  end.
Proof.
  intros e r rq f s Hd Hk res. unfold res, on_failure.
  cbv [bind gets ret write finish append_written modify].
  destruct f; try (quiet_step;
    [ destruct (st_finished s1) eqn:?; [cbn; close_frame | close_frame] | close_frame ]).
  cbn. destruct (st_finished s) eqn:Hf; cbn; [|rewrite Hk, Hf, Hd; cbn].
  - split; [left; auto | reflexivity].
  - split; [right; eexists; repeat split | reflexivity].
Qed.

Lemma one_write_same_output : forall s0 s s',
  st_written s0 = st_written s -> st_finish_calls s0 = st_finish_calls s ->
  st_finished s0 = st_finished s -> one_write s0 s' -> one_write s s'.
Proof.
  intros s0 s s' Hw Hc Hf [(Hw' & Hc' & Hf') | (b & Hw' & Hc' & Hf')].
  - left; repeat split; congruence.
  - right; exists b; repeat split; congruence.
Qed.

Lemma frame_trans_calls : forall s1 s2 s3,
  frame s1 s2 -> one_write s2 s3 /\ st_calls s3 = st_calls s2 ->
  one_write s1 s3 /\ st_calls s3 = st_calls s1.
Proof.
  intros s1 s2 s3 Hfr [Hw Hc]. split; [eapply one_write_frame_l; eauto|].
  destruct Hfr as (_ & _ & _ & Hc' & _). congruence.
Qed.

(** The continuations of a handler's Deferred, as [run_handler] chains them. *)
Lemma continuation_one_write : forall e r rq (res : py pyval) s,
  st_disconnected s = false -> st_fake_head s = false ->
  let out := (match res with
              | Ok v => try_except (on_response e r rq v) (on_failure e r rq)
              | Raise ex => on_failure e r rq ex
              end) s in
  match fst out with
  | Ok _ => one_write s (snd out) /\ st_calls (snd out) = st_calls s
  | Raise _ => one_write s (snd out) /\ st_calls (snd out) = st_calls s
  end.
Proof.
  intros e r rq res s Hd Hk out. unfold out. clear out.
  destruct res as [v|ex].
  - unfold try_except.
    pose proof (on_response_one_write e r rq v s Hd Hk) as H1.
    destruct (on_response e r rq v s) as [[u|ex] s1]; cbv [fst snd] in H1 |- *; [exact H1|].
    assert (Hd1 : st_disconnected s1 = false)
      by (destruct H1 as (_ & _ & _ & _ & _ & E & _); congruence).
    assert (Hk1 : st_fake_head s1 = false)
      by (destruct H1 as (_ & _ & _ & _ & _ & _ & E); congruence).
    pose proof (on_failure_one_write e r rq ex s1 Hd1 Hk1) as H2.
    destruct (on_failure e r rq ex s1) as [[u|ex'] s2]; cbv [fst snd] in H2 |- *.
    + eapply frame_trans_calls; eauto.
    + apply frame_trans_calls with s1; [exact H1|].
      split; [apply frame_one_write, H2 | destruct H2 as (_ & _ & _ & H2 & _); exact H2].
  - pose proof (on_failure_one_write e r rq ex s Hd Hk) as H2.
    destruct (on_failure e r rq ex s) as [[u|ex'] s2]; cbv [fst snd] in H2 |- *; [exact H2|].
    split; [apply frame_one_write, H2 | destruct H2 as (_ & _ & _ & H2 & _); exact H2].
Qed.

Lemma swallow_snd : forall (m : M unit) s, swallow m s = (Ok tt, snd (m s)).
Proof.
  intros m s. unfold swallow, try_except, ret.
  destruct (m s) as [[[]|ex] s']; reflexivity.
Qed.

Lemma run_handler_single_response : forall e r rq mn h args s,
  st_disconnected s = false -> st_fake_head s = false ->
  let res := run_handler e r rq mn h args s in
  fst res = Ok tt /\ st_calls (snd res) = (st_calls s ++ [(mn, args)])%list
  /\ one_write s (snd res).
Proof.
  intros e r rq mn h args s Hd Hk res. unfold res, run_handler.
  cbv [bind record_call modify]. rewrite swallow_snd.
  match goal with |- context [snd (?m ?s0)] =>
    pose proof (continuation_one_write e r rq (handlers e h args) s0 Hd Hk) as H;
    cbv zeta in H; destruct (m s0) as [[u|ex] s2]
  end;
  cbv [fst snd] in H |- *; destruct H as [Hw Hc];
    (split; [reflexivity|]); (split; [exact Hc|]);
    (eapply one_write_same_output; [| | | exact Hw]; reflexivity).
Qed.

(** X1.  On a request whose connection is open and which is not being
    rendered for Twisted's fake HEAD, whatever the handler and its
    continuations do, one call of [RestResource.render] that returns
    [NOT_DONE_YET] has invoked exactly one handler and has written at most
    one string to the request, with one call of [finish] after it; when it
    returns a body instead, or raises, it has written nothing, called
    [finish] not at all, invoked no handler and scheduled nothing. *)
Lemma render_single_response : forall e r rq s,
  st_disconnected s = false -> st_fake_head s = false ->
  let res := render e r rq s in
  match fst res with
  | Ok NOT_DONE_YET =>
      one_write s (snd res)
      /\ exists mn args, st_calls (snd res) = (st_calls s ++ [(mn, args)])%list
  | _ => frame s (snd res)
  end.
Proof.
  intros e r rq s Hd Hk res. unfold res, render. clear res.
  cbv [bind set_recursion setHeader modify set_method_called throw ret].
  destruct (attr_truthy (lookup_attr r (REST_METHOD_PREFIX ++ rq_method rq))) eqn:E1;
  [ destruct (lookup_attr r (REST_METHOD_PREFIX ++ rq_method rq)) as [[h|h|v]|] eqn:E2
  | destruct (lookup_attr r REST_METHOD) as [[h|h|v]|] eqn:E2 ];
  cbn -[render_error run_handler].
  all: repeat match goal with
         | |- context [if ?c then _ else _] => destruct c
         | |- context [rq_content ?q] => destruct (rq_content q)
         | |- context [format_post ?a ?b ?c] => destruct (format_post a b c)
         end.
  all: first
    [ match goal with
      | |- context [run_handler ?e ?r ?rq ?mn ?h ?args ?s0] =>
          pose proof (run_handler_single_response e r rq mn h args s0 Hd Hk) as HR;
          cbv zeta in HR;
          destruct (run_handler e r rq mn h args s0) as [[[]|ex] s2];
          cbv [fst snd] in HR |- *; destruct HR as (HR1 & HR2 & HR3);
          [ split; [eapply one_write_same_output; [| | | exact HR3]; reflexivity
                   | exists mn, args; exact HR2]
          | discriminate HR1 ]
      end
    | quiet_step; destruct Hq as (Hw & Hf & Hc & Hcl & Hl & Hdc & Hfk); cbn in *;
      repeat split; congruence
    | repeat split ].
Qed.

Lemma text_ok_app : forall a b, Lxml.text_ok (a ++ b) = Lxml.text_ok a && Lxml.text_ok b.
Proof.
  induction a as [|c a IH]; intro b; simpl; [reflexivity|].
  rewrite IH, andb_assoc. reflexivity.
Qed.

Lemma text_ok_digits : forall fuel n acc,
  Lxml.text_ok acc = true -> Lxml.text_ok (digits_aux fuel n acc) = true.
Proof.
  induction fuel as [|f IH]; intros n acc H; cbn [digits_aux]; [exact H|].
  assert (Hd : Lxml.text_ok (String (chr (48 + n mod 10)) acc) = true).
  { change (Lxml.text_byte_ok (chr (48 + n mod 10)) && Lxml.text_ok acc = true).
    rewrite H, andb_true_r. unfold Lxml.text_byte_ok, chr.
    pose proof (Nat.mod_upper_bound n 10 ltac:(lia)) as Hm.
    rewrite Ascii.nat_ascii_embedding by lia.
    apply andb_true_intro; split.
    - apply Nat.ltb_lt; lia.
    - apply orb_true_intro; left. apply orb_true_intro; left.
      apply orb_true_intro; left. apply Nat.leb_le; lia. }
  destruct (Nat.ltb n 10); [exact Hd | apply IH, Hd].
Qed.

Lemma text_ok_z_repr : forall z, Lxml.text_ok (z_repr z) = true.
Proof.
  intros [|p|p]; unfold z_repr, nat_repr.
  - apply text_ok_digits; reflexivity.
  - apply text_ok_digits; reflexivity.
  - rewrite text_ok_app. apply text_ok_digits. reflexivity.
Qed.

(** X11.  When [brief], or else [detail], has a byte above 0x7f,
    [JsonErrorPage.render] raises [UnicodeDecodeError] at that byte before
    it touches the request: status and headers are unchanged. *)
Lemma json_error_page_non_ascii : forall rq ep s p,
  first_non_ascii 0 (ep_brief ep) = Some p
  \/ (all_ascii (ep_brief ep) = true /\ first_non_ascii 0 (ep_detail ep) = Some p) ->
  JsonErrorPage_render rq ep s = (Raise (UnicodeDecodeError p), s).
Proof.
  intros rq ep s p H. unfold JsonErrorPage_render.
  cbv [bind lift ret gets modify setResponseCode setHeader].
  destruct H as [H | [Hb H]].
  - unfold ascii_decode at 1. rewrite H. reflexivity.
  - rewrite (ascii_decode_ok _ Hb). unfold ascii_decode. rewrite H. reflexivity.
Qed.

(** X12.  With [log=False], [XmlErrorPage.render] returns the
    [ErrorPage] document with the code, the brief and (only when the site
    displays tracebacks) the detail, and sets the status to the code, when
    those texts are valid XML text; when the brief, or the shown detail,
    is not, it raises [ValueError] and leaves the request unchanged. *)
Lemma xml_error_page_outcome : forall rq ep s,
  ep_log ep = false ->
  (Lxml.text_ok (ep_brief ep) = true ->
   (rq_displayTracebacks rq = true -> Lxml.text_ok (ep_detail ep) = true) ->
   fst (XmlErrorPage_render rq ep s)
     = Ok (Lxml.tostring_pretty
             (xml_error_tree (Some (z_repr (ep_code ep))) (Some (ep_brief ep))
                (if rq_displayTracebacks rq then Some (ep_detail ep) else None)))
   /\ st_code (snd (XmlErrorPage_render rq ep s)) = ep_code ep)
  /\ (Lxml.text_ok (ep_brief ep) = false
      \/ (rq_displayTracebacks rq = true /\ Lxml.text_ok (ep_detail ep) = false) ->
      exists msg, XmlErrorPage_render rq ep s = (Raise (ValueError msg), s)).
Proof.
  intros rq ep s Hlog. unfold XmlErrorPage_render. rewrite Hlog.
  cbv [bind lift ret gets modify setResponseCode setHeader Lxml.set_text].
  rewrite !text_ok_z_repr. split.
  - intros Hb Hd. rewrite Hb.
    destruct (rq_displayTracebacks rq); [rewrite (Hd eq_refl)|]; split; reflexivity.
  - intros [Hb | [Hdt Hd]].
    + rewrite Hb. eexists. reflexivity.
    + rewrite Hdt, Hd. destruct (Lxml.text_ok (ep_brief ep)); eexists; reflexivity.
Qed.

Section PyvalInd.
Variable P : pyval -> Prop.
Hypothesis HNone : P PNone.
Hypothesis HBool : forall b, P (PBool b).
Hypothesis HInt : forall z, P (PInt z).
Hypothesis HFloat : forall f, P (PFloat f).
Hypothesis HStr : forall s, P (PStr s).
Hypothesis HList : forall l, Forall P l -> P (PList l).
Hypothesis HTuple : forall l, Forall P l -> P (PTuple l).
Hypothesis HDict : forall kvs, Forall (fun kv => P (snd kv)) kvs -> P (PDict kvs).
Hypothesis HElement : forall el, P (PElement el).
Hypothesis HObj : forall i, P (PObj i).

Fixpoint pyval_deep_ind (v : pyval) : P v :=
  match v with
  | PNone => HNone
  | PBool b => HBool b
  | PInt z => HInt z
  | PFloat f => HFloat f
  | PStr s => HStr s
  | PList l =>
      HList l ((fix go (l : list pyval) : Forall P l :=
                  match l with
                  | [] => Forall_nil _
                  | x :: l' => Forall_cons _ (pyval_deep_ind x) (go l')
                  end) l)
  | PTuple l =>
      HTuple l ((fix go (l : list pyval) : Forall P l :=
                  match l with
                  | [] => Forall_nil _
                  | x :: l' => Forall_cons _ (pyval_deep_ind x) (go l')
                  end) l)
  | PDict kvs =>
      HDict kvs ((fix go (l : list (pyval * pyval)) : Forall (fun kv => P (snd kv)) l :=
                  match l with
                  | [] => Forall_nil _
                  | kv :: l' => Forall_cons _ (pyval_deep_ind (snd kv)) (go l')
                  end) kvs)
  | PElement el => HElement el
  | PObj i => HObj i
  end.
End PyvalInd.

Lemma all_ok_map_ok : forall {X} (f : X -> py pystr) (l : list X),
  (exists out, Json.all_ok (map f l) = Ok out)
  <-> Forall (fun x => exists o, f x = Ok o) l.
Proof.
  intros X f l; induction l as [|x l IH]; cbn.
  - split; [constructor | eauto].
  - destruct (f x) as [o|ex] eqn:Ef; cbn.
    + destruct (Json.all_ok (map f l)) as [os|ex] eqn:El; cbn.
      * split; [intros _; constructor; [eauto | apply IH; eauto] | eauto].
      * split; [intros [? H]; discriminate H|].
        intros H; inversion H as [|? ? _ Hl]; subst.
        apply IH in Hl; destruct Hl as [? Hl]; discriminate Hl.
    + split; [intros [? H]; discriminate H|].
      intros H; inversion H as [|? ? [? Hx] _]; congruence.
Qed.

Lemma forallb_Forall_iff : forall {X} (p : X -> bool) (l : list X),
  forallb p l = true <-> Forall (fun x => p x = true) l.
Proof.
  intros X p l; rewrite forallb_forall, Forall_forall; reflexivity.
Qed.

Lemma key_str_ok_iff : forall k,
  (exists s, Json.key_str k = Ok s) <-> json_key_ok k = true.
Proof.
  intros [| [] | z | [f| | |] | s | l | l | kvs | el | i]; cbn;
    split; intros H; try discriminate; try (destruct H as [? H]; discriminate H);
    eauto.
Qed.

Lemma encode_ok_iff : forall v lvl,
  (exists out, Json.encode false None lvl v = Ok out) <-> json_ok v = true.
Proof.
  intro v; induction v as [| b | z | f | s | l IH | l IH | kvs IH | el | i]
    using pyval_deep_ind; intro lvl.
  - cbn; split; eauto.
  - destruct b; cbn; split; eauto.
  - cbn; split; eauto.
  - destruct f; cbn; split; intros H; try discriminate; try (destruct H as [? H]; discriminate H); eauto.
  - cbn; split; eauto.
  - assert (Hl : (exists out, Json.all_ok (map (Json.encode false None (S lvl)) l) = Ok out)
                 <-> json_ok (PList l) = true).
    { cbn [json_ok]. rewrite forallb_Forall_iff, all_ok_map_ok, !Forall_forall.
      rewrite Forall_forall in IH.
      split; intros H x Hx; apply (IH x Hx (S lvl)); auto. }
    destruct l as [|x l']; [cbn; split; eauto|].
    rewrite <- Hl. cbn [Json.encode].
    destruct (Json.all_ok _); cbn; split; intros [? H]; try discriminate H; eauto.
  - assert (Hl : (exists out, Json.all_ok (map (Json.encode false None (S lvl)) l) = Ok out)
                 <-> json_ok (PTuple l) = true).
    { cbn [json_ok]. rewrite forallb_Forall_iff, all_ok_map_ok, !Forall_forall.
      rewrite Forall_forall in IH.
      split; intros H x Hx; apply (IH x Hx (S lvl)); auto. }
    destruct l as [|x l']; [cbn; split; eauto|].
    rewrite <- Hl. cbn [Json.encode].
    destruct (Json.all_ok _); cbn; split; intros [? H]; try discriminate H; eauto.
  - assert (Hd : (exists out, Json.all_ok (map (fun kv =>
                      k <-? Json.key_str (fst kv) ;;
                      x <-? Json.encode false None (S lvl) (snd kv) ;;
                      Ok (Json.encode_basestring k ++ ": " ++ x)) kvs) = Ok out)
                 <-> json_ok (PDict kvs) = true).
    { cbn [json_ok]. rewrite forallb_Forall_iff, all_ok_map_ok, !Forall_forall.
      rewrite Forall_forall in IH.
      split; intros H kv Hkv; specialize (IH kv Hkv (S lvl)); specialize (H kv Hkv).
      - destruct (Json.key_str (fst kv)) as [k|ex] eqn:Ek; cbn in H;
          [|destruct H as [? H]; discriminate H].
        destruct (Json.encode false None (S lvl) (snd kv)) as [o|ex] eqn:Eo; cbn in H;
          [|destruct H as [? H]; discriminate H].
        apply andb_true_intro; split.
        + apply key_str_ok_iff; eauto.
        + apply IH; eauto.
      - apply andb_true_iff in H; destruct H as [Hk Hv].
        apply key_str_ok_iff in Hk; destruct Hk as [k Hk].
        apply IH in Hv; destruct Hv as [o Ho].
        rewrite Hk, Ho; cbn; eauto. }
    destruct kvs as [|kv kvs']; [cbn; split; eauto|].
    rewrite <- Hd. cbn [Json.encode]. rewrite map_map.
    destruct (Json.all_ok _); cbn; split; intros [? H]; try discriminate H; eauto.
  - cbn; split; intros H; [destruct H as [? H]; discriminate H | discriminate H].
  - cbn; split; intros H; [destruct H as [? H]; discriminate H | discriminate H].
Qed.

Lemma lstrip_empty_iff : forall s,
  lstrip s = EmptyString <-> forallb is_space (list_ascii_of_string s) = true.
Proof.
  induction s as [|c s IH]; cbn; [split; reflexivity|].
  destruct (is_space c); cbn; [exact IH|split; discriminate].
Qed.

Lemma lstrip_idem : forall s, lstrip (lstrip s) = lstrip s.
Proof.
  induction s as [|c s IH]; cbn; [reflexivity|].
  destruct (is_space c) eqn:E; [exact IH|cbn; rewrite E; reflexivity].
Qed.

Lemma forallb_rev : forall {X} (p : X -> bool) l, forallb p (rev l) = forallb p l.
Proof.
  intros X p l; apply eq_true_iff_eq; rewrite !forallb_forall.
  split; intros H x Hx; apply H; [apply in_rev in Hx | apply in_rev]; exact Hx.
Qed.

Lemma string_of_list_ascii_empty : forall l,
  string_of_list_ascii l = EmptyString <-> l = [].
Proof. intros [|c l]; cbn; split; congruence. Qed.

Lemma rstrip_empty_iff : forall s,
  rstrip s = EmptyString <-> forallb is_space (list_ascii_of_string s) = true.
Proof.
  intro s; unfold rstrip.
  rewrite string_of_list_ascii_empty.
  rewrite <- (forallb_rev is_space (list_ascii_of_string s)).
  rewrite <- (list_ascii_of_string_of_list_ascii (rev (list_ascii_of_string s))) at 2.
  rewrite <- lstrip_empty_iff.
  split; intro H.
  - destruct (lstrip _); [reflexivity|].
    cbn in H. destruct (rev _); discriminate H.
  - rewrite H; reflexivity.
Qed.

Lemma strip_empty_iff : forall s,
  strip s = EmptyString <-> forallb is_space (list_ascii_of_string s) = true.
Proof.
  intro s; unfold strip. rewrite rstrip_empty_iff, <- lstrip_empty_iff, lstrip_idem.
  apply lstrip_empty_iff.
Qed.

(** X16.  [EmptyPost._format_post] returns [None] for a body made only
    of whitespace (the empty body included) and raises [NameError] for
    every other body: its [else] branch refers to the unbound name
    [response], so the parent codec is never reached. *)
Theorem EmptyPost_format_post_outcome : forall body,
  EmptyPost_format_post body
  = if forallb is_space (list_ascii_of_string body) then Ok PNone
    else Raise (NameError "global name 'response' is not defined").
Proof.
  intro body; unfold EmptyPost_format_post; cbn [truthy].
  destruct (forallb is_space (list_ascii_of_string body)) eqn:E.
  - apply strip_empty_iff in E; rewrite E; reflexivity.
  - destruct (strip body) eqn:Es; [apply strip_empty_iff in Es; congruence|reflexivity].
Qed.



Lemma mixin_loop_missing : forall cls names impl n,
  In n names -> assoc_attr (mx_dict cls) n = None ->
  exists ex attrs, mixin_loop cls names impl = (Raise ex, attrs)
    /\ ((exists msg, ex = ValueError msg) \/ (exists msg, ex = OtherError "KeyError" msg)).
Proof.
  intros cls names; induction names as [|m ns IH]; intros impl n Hin Hn; [destruct Hin|].
  cbn [mixin_loop].
  destruct (assoc_attr (mx_dict cls ++ mx_inherited cls) m) as [[h|h|[]]|];
    try (do 2 eexists; split; [reflexivity|left; eauto]);
    (destruct (assoc_attr (mx_dict cls) m) as [func|] eqn:Ef;
       [|do 2 eexists; split; [reflexivity|right; eauto]]);
    (destruct Hin as [->|Hin]; [congruence|]);
    apply (IH _ n Hin Hn).
Qed.



(** X19.  When a name in a mixin's [methods] is not bound in the mixin
    class's own namespace, [ResourceMixin.mixin] raises: [ValueError] if
    the name is unbound or [None] on the class, [KeyError] if it is only
    inherited. *)
Theorem mixin_missing_method_raises : forall cls impl_cls n,
  In n (mx_methods cls) -> assoc_attr (mx_dict cls) n = None ->
  exists ex impl', mixin cls impl_cls = (Raise ex, impl')
    /\ ((exists msg, ex = ValueError msg) \/ (exists msg, ex = OtherError "KeyError" msg)).
Proof.
  intros cls impl_cls n Hin Hn.
  destruct (mixin_loop_missing cls (mx_methods cls) (res_attrs impl_cls) n Hin Hn)
    as (ex & attrs & E & Hex).
  unfold mixin; rewrite E. eauto.
Qed.

Lemma render_error_sets_code : forall r rq code brief detail s b s',
  render_error r rq code brief detail s = (Ok b, s') -> st_code s' = code.
Proof.
  intros r rq code brief detail s b s'.
  unfold render_error, ErrorPage_render; cbn [ep_class].
  destruct (ERROR_CLASS (res_format r)).
  - unfold JsonErrorPage_render; cbn [ep_brief ep_detail ep_log ep_code].
    cbv [bind lift ret gets modify setResponseCode setHeader].
    destruct (ascii_decode brief); [|discriminate].
    destruct (ascii_decode detail); [|discriminate].
    destruct (Json.dumps _ _ _); [|discriminate].
    intro H; injection H as _ <-; reflexivity.
  - unfold XmlErrorPage_render; cbn [ep_brief ep_detail ep_log ep_code].
    cbv [bind lift ret gets modify setResponseCode setHeader].
    destruct (Lxml.set_text (Some (z_repr code))); [|discriminate].
    destruct (Lxml.set_text (Some brief)); [|discriminate].
    destruct (Lxml.set_text _); [|discriminate].
    intro H; injection H as _ <-; reflexivity.
Qed.

(** X4.  On an unfinished request whose connection is open and which is
    not being rendered for Twisted's fake HEAD, [on_response] with a value
    of one of the resource's [HANDLE_TYPES] whose [_format_response]
    succeeds writes exactly the serialized bytes, sets [content-length] to
    their length, leaves the status code alone and calls [finish] once. *)
Theorem on_response_writes_serialized : forall e r rq v s out,
  st_finished s = false -> st_disconnected s = false -> st_fake_head s = false ->
  HANDLE_TYPES (res_format r) v = true ->
  format_response e (res_format r) v (res_encoding r) = Ok out ->
  let res := on_response e r rq v s in
  fst res = Ok tt
  /\ st_written (snd res) = (st_written s ++ [out])%list
  /\ st_finished (snd res) = true
  /\ st_finish_calls (snd res) = S (st_finish_calls s)
  /\ st_code (snd res) = st_code s
  /\ In ("content-length", nat_repr (String.length out)) (st_headers (snd res)).
Proof.
  intros e r rq v s out Hf Hd Hk Ht Ho res; unfold res, on_response.
  cbv [bind gets ret try_except lift setHeader write finish append_written modify].
  rewrite Hf, Ht, Ho. cbn. live_rewrite. repeat split; auto.
Qed.

(** X5.  On an unfinished request whose connection is open and which is
    not being rendered for Twisted's fake HEAD, [on_response] with a value
    whose serialization raises, or with a value that is neither of
    [HANDLE_TYPES] nor a resource, writes one error page with status 500 and
    calls [finish] once; if rendering that page raises, nothing is written. *)
Theorem on_response_error_page_500 : forall e r rq v s,
  st_finished s = false -> st_disconnected s = false -> st_fake_head s = false ->
  (HANDLE_TYPES (res_format r) v = true
   /\ exists ex, format_response e (res_format r) v (res_encoding r) = Raise ex)
  \/ (HANDLE_TYPES (res_format r) v = false /\ is_resource e v = false) ->
  let res := on_response e r rq v s in
  match fst res with
  | Ok _ => st_code (snd res) = INTERNAL_SERVER_ERROR /\ page_written s (snd res)
  | Raise _ => frame s (snd res)
  end.
Proof.
  intros e r rq v s Hf Hd Hk Hcase res; unfold res, on_response.
  cbv [bind gets ret try_except lift setHeader write finish append_written modify].
  rewrite Hf.
  destruct Hcase as [[Ht [ex Hex]] | [Ht Hr]]; [rewrite Ht, Hex | rewrite Ht, Hr];
    cbv [fst snd];
    (match goal with |- context [render_error ?a ?b ?c ?d ?g ?s0] =>
       pose proof (quiet_render_error a b c d g s0) as Hq;
       pose proof (render_error_sets_code a b c d g s0) as Hc;
       destruct (render_error a b c d g s0) as [[page|ex'] s1]
     end); cbn in Hq |- *; destruct Hq as (Hw & Hfin & Hfc & Hcl & Hl & Hdc & Hfk);
    live_rewrite.
  - split; [apply (Hc page); reflexivity|].
    exists page; cbn; rewrite Hw; repeat split; congruence.
  - repeat split; congruence.
  - split; [apply (Hc page); reflexivity|].
    exists page; cbn; rewrite Hw; repeat split; congruence.
  - repeat split; congruence.
Qed.

(** X6.  On an unfinished request whose connection is open and which is
    not being rendered for Twisted's fake HEAD, [on_failure] with any
    failure other than [CancelledError] writes one error page with status
    500 and calls [finish] once; if rendering that page raises, nothing is
    written. *)
Theorem on_failure_error_page_500 : forall e r rq f s,
  st_finished s = false -> st_disconnected s = false -> st_fake_head s = false ->
  f <> CancelledError ->
  let res := on_failure e r rq f s in
  match fst res with
  | Ok _ => st_code (snd res) = INTERNAL_SERVER_ERROR /\ page_written s (snd res)
  | Raise _ => frame s (snd res)
  end.
Proof.
  intros e r rq f s Hf Hd Hk Hc res; unfold res, on_failure.
  cbv [bind gets ret write finish append_written modify].
  destruct f; try congruence; cbv [fst snd];
  match goal with |- context [render_error ?a ?b ?c ?d ?g ?s0] =>
    pose proof (quiet_render_error a b c d g s0) as Hq;
    pose proof (render_error_sets_code a b c d g s0) as Hcode;
    destruct (render_error a b c d g s0) as [[page|ex'] s1]
  end; cbn in Hq |- *; destruct Hq as (Hw & Hfin & Hfc & Hcl & Hl & Hdc & Hfk);
  live_rewrite;
  first [ split; [apply (Hcode page); reflexivity|];
          exists page; cbn; rewrite Hw; repeat split; congruence
        | repeat split; congruence ].
Qed.

(** X7.  When the connection of an unfinished request is lost, Twisted sets
    [_disconnected] and runs [on_connection_closed], which never raises.  If
    the handler's Deferred is still pending, its cancellation runs
    [on_failure]: the write of "Request was cancelled" is dropped and the
    call of [finish] raises [RuntimeError] inside the Deferred, so nothing is
    written, the request stays unfinished, and the status code and the
    headers are unchanged; otherwise only [_disconnected] changes. *)
Theorem connection_lost_outcome : forall e r rq pending s,
  st_finished s = false ->
  let res := connection_lost e r rq pending s in
  fst res = Ok tt
  /\ st_disconnected (snd res) = true
  /\ st_written (snd res) = st_written s
  /\ st_finished (snd res) = false
  /\ st_code (snd res) = st_code s
  /\ st_headers (snd res) = st_headers s
  /\ st_finish_calls (snd res)
     = (if pending then S (st_finish_calls s) else st_finish_calls s).
Proof.
  intros e r rq pending s Hf res; unfold res, connection_lost, on_connection_closed.
  destruct pending; [|cbv [bind set_disconnected modify ret]; cbn; repeat split; auto].
  unfold swallow, on_failure.
  cbv [bind gets ret try_except write finish append_written set_disconnected modify].
  cbn. rewrite Hf. cbn. destruct (st_fake_head s); cbn; repeat split; auto.
Qed.

(** X9.  [RestResource.__init__] raises [LookupError] for an unknown
    encoding; with a known encoding, a subclass lacking any of [ACCEPT],
    [CONTENT_TYPE], [HANDLE_TYPES] or [ERROR_CLASS] makes it raise
    [TypeError] (the format string of the intended [ValueError] has too few
    arguments), and a subclass with all four constructs normally. *)
Theorem RestResource_init_outcome : forall known_encoding has_attr encoding,
  (known_encoding encoding = false ->
   RestResource_init known_encoding has_attr encoding
   = Raise (OtherError "LookupError" ("unknown encoding: " ++ encoding)))
  /\ (known_encoding encoding = true ->
      (exists a, In a SUBCLASS_ATTRS /\ has_attr a = false) ->
      RestResource_init known_encoding has_attr encoding
      = Raise (TypeError "not enough arguments for format string"))
  /\ (known_encoding encoding = true ->
      (forall a, In a SUBCLASS_ATTRS -> has_attr a = true) ->
      RestResource_init known_encoding has_attr encoding = Ok tt).
Proof.
  intros known has enc; unfold RestResource_init.
  split; [intros H; rewrite H; reflexivity|].
  split; intros H; rewrite H; cbn [negb].
  - intros (a & Hin & Ha).
    induction SUBCLASS_ATTRS as [|b l IH]; [destruct Hin|].
    cbn [check_subclass_attrs].
    destruct (has b) eqn:Hb; cbn [negb]; [|reflexivity].
    destruct Hin as [->|Hin]; [congruence|exact (IH Hin)].
  - intros Hall.
    induction SUBCLASS_ATTRS as [|b l IH]; [reflexivity|].
    cbn [check_subclass_attrs]. rewrite (Hall b (or_introl eq_refl)); cbn [negb].
    apply IH; intros a Ha; apply Hall; right; exact Ha.
Qed.

Lemma first_non_ascii_some : forall s i,
  all_ascii s = false -> exists p, first_non_ascii i s = Some p.
Proof.
  induction s as [|c s IH]; intros i H; cbn [all_ascii first_non_ascii] in *;
    [discriminate|].
  destruct (is_ascii_byte c); cbn [andb] in H; [apply IH, H|eauto].
Qed.

Lemma append_ascii_names_stops : forall pre n post acc,
  Forall (fun x => all_ascii x = true) pre -> all_ascii n = false ->
  append_ascii_names acc (pre ++ n :: post) = (acc ++ map PStr pre)%list.
Proof.
  induction pre as [|x pre IH]; intros n post acc Hpre Hn; cbn.
  - unfold ascii_decode. destruct (first_non_ascii_some n 0 Hn) as [p ->].
    rewrite app_nil_r; reflexivity.
  - inversion Hpre as [|? ? Hx Hpre']; subst.
    rewrite (ascii_decode_ok x Hx), IH by assumption.
    rewrite <- app_assoc; reflexivity.
Qed.

(** X8.  [_allowed_methods] stops at the first [rest_] method name
    with a byte above 0x7f: the list is [HEAD] followed by the names before
    it only, and the names after it are dropped as well. *)
Theorem allowed_methods_stop_at_non_ascii : forall r pre n post,
  prefixedMethodNames r REST_METHOD_PREFIX = (pre ++ n :: post)%list ->
  Forall (fun x => all_ascii x = true) pre -> all_ascii n = false ->
  _allowed_methods r = PStr "HEAD" :: map PStr pre.
Proof.
  intros r pre n post H Hpre Hn; unfold _allowed_methods; rewrite H.
  apply append_ascii_names_stops; assumption.
Qed.

(** X2.  When the attribute [render] resolves for the method
    ([rest_<METHOD>], else [rest]) is truthy but not callable, [render]
    invokes no handler and writes nothing; it returns the rendered error
    page with status 500, or raises if the page cannot be rendered. *)
Theorem render_not_callable_500 : forall e r rq s,
  attr_truthy (resolved_method r (rq_method rq)) = true ->
  attr_callable (resolved_method r (rq_method rq)) = false ->
  let res := render e r rq s in
  st_calls (snd res) = st_calls s
  /\ st_written (snd res) = st_written s
  /\ st_finished (snd res) = st_finished s
  /\ match fst res with
     | Ok (Body _) => st_code (snd res) = INTERNAL_SERVER_ERROR
     | Ok NOT_DONE_YET => False
     | Raise _ => True
     end.
Proof.
  intros e r rq s Ht Hc res; unfold res, render; clear res.
  unfold resolved_method in Ht, Hc.
  cbv [bind set_recursion setHeader modify].
  destruct (attr_truthy (lookup_attr r (REST_METHOD_PREFIX ++ rq_method rq))) eqn:E1;
  [ destruct (lookup_attr r (REST_METHOD_PREFIX ++ rq_method rq)) as [[h|h|v]|]
  | destruct (lookup_attr r REST_METHOD) as [[h|h|v]|] ];
  cbn [attr_truthy attr_callable] in Ht, Hc; try discriminate;
  cbn [attr_truthy negb]; rewrite ?Ht; cbn -[render_error truthy];
  match goal with |- context [render_error ?a ?b ?c ?d ?g ?s0] =>
    pose proof (quiet_render_error a b c d g s0) as Hq;
    pose proof (render_error_sets_code a b c d g s0) as Hcode;
    destruct (render_error a b c d g s0) as [[page|ex'] s1]
  end; cbn in Hq |- *; destruct Hq as (Hw & Hfin & Hfc & Hcl & Hl);
  cbn in Hw, Hfin, Hfc, Hcl;
  (split; [congruence|]); (split; [congruence|]); (split; [congruence|]);
  try exact I; apply (Hcode page); reflexivity.
Qed.

Lemma all_ascii_escape_char : forall c, all_ascii (Json.escape_char c) = is_ascii_byte c.
Proof. intros [[] [] [] [] [] [] [] []]; reflexivity. Qed.

Lemma all_ascii_escape : forall s, all_ascii (Json.escape s) = all_ascii s.
Proof.
  induction s as [|c s IH]; simpl; [reflexivity|].
  rewrite all_ascii_app, all_ascii_escape_char, IH. reflexivity.
Qed.

Lemma all_ascii_encode_basestring : forall s,
  all_ascii (Json.encode_basestring s) = all_ascii s.
Proof.
  intro s. unfold Json.encode_basestring.
  rewrite !all_ascii_app, all_ascii_escape. simpl. rewrite andb_true_r. reflexivity.
Qed.

Lemma text_ok_all_ascii : forall s, Lxml.text_ok s = true -> all_ascii s = true.
Proof.
  induction s as [|c s IH]; simpl; [reflexivity|].
  intro H. apply andb_prop in H as [Hc Hs].
  unfold Lxml.text_byte_ok in Hc. apply andb_prop in Hc as [Hc _].
  rewrite IH by exact Hs. unfold is_ascii_byte. rewrite Hc. reflexivity.
Qed.

Lemma all_ascii_z_repr : forall z, all_ascii (z_repr z) = true.
Proof. intro z. apply text_ok_all_ascii, text_ok_z_repr. Qed.

Lemma all_ascii_join_py : forall sep l,
  all_ascii sep = true -> all_ascii (Json.join_py sep l) = forallb all_ascii l.
Proof.
  intros sep l Hs. induction l as [|x [|y l] IH]; simpl; [reflexivity|now rewrite andb_true_r|].
  simpl in IH. rewrite !all_ascii_app, Hs, IH. reflexivity.
Qed.

Lemma all_ok_map_forallb : forall {X} (f : X -> py pystr) (g : X -> bool) l outs,
  Json.all_ok (map f l) = Ok outs ->
  (forall x o, In x l -> f x = Ok o -> all_ascii o = g x) ->
  forallb all_ascii outs = forallb g l.
Proof.
  intros X f g l; induction l as [|x l IH]; intros outs Hl Hg; cbn in Hl.
  - injection Hl as <-. reflexivity.
  - destruct (f x) as [o|ex] eqn:Ef; cbn in Hl; [|discriminate Hl].
    destruct (Json.all_ok (map f l)) as [os|ex] eqn:El; cbn in Hl; [|discriminate Hl].
    injection Hl as <-. cbn.
    rewrite (Hg x o (or_introl eq_refl) Ef), (IH os eq_refl); [reflexivity|].
    intros y p Hy. apply Hg. right; exact Hy.
Qed.

Lemma key_str_ascii : forall k out, Json.key_str k = Ok out -> all_ascii out = json_ascii k.
Proof.
  intros [| [] | z | [f| | |] | s | l | l | kvs | el | i] out H; cbn in H;
    try discriminate H; injection H as <-; try reflexivity.
  apply all_ascii_z_repr.
Qed.

(** The output of [json.dumps] (with [ensure_ascii=False]) is ASCII exactly
    when every string of the value is. *)
Lemma encode_ascii : forall v lvl out,
  Json.encode false None lvl v = Ok out -> all_ascii out = json_ascii v.
Proof.
  intro v; induction v as [| b | z | f | s | l IH | l IH | kvs IH | el | i]
    using pyval_deep_ind; intros lvl out H.
  - injection H as <-; reflexivity.
  - destruct b; injection H as <-; reflexivity.
  - injection H as <-; apply all_ascii_z_repr.
  - destruct f; cbn in H; try discriminate H. injection H as <-; reflexivity.
  - injection H as <-. apply all_ascii_encode_basestring.
  - destruct l as [|x l']; [injection H as <-; reflexivity|].
    cbn [Json.encode] in H.
    destruct (Json.all_ok _) as [items|ex] eqn:E; cbn in H; [|discriminate H].
    injection H as <-. rewrite Forall_forall in IH.
    cbn [all_ascii]. rewrite all_ascii_app, all_ascii_join_py by reflexivity.
    rewrite (all_ok_map_forallb _ json_ascii _ _ E)
      by (intros y o Hy Ho; exact (IH y Hy _ _ Ho)).
    cbn. destruct (json_ascii x && forallb json_ascii l'); reflexivity.
  - destruct l as [|x l']; [injection H as <-; reflexivity|].
    cbn [Json.encode] in H.
    destruct (Json.all_ok _) as [items|ex] eqn:E; cbn in H; [|discriminate H].
    injection H as <-. rewrite Forall_forall in IH.
    cbn [all_ascii]. rewrite all_ascii_app, all_ascii_join_py by reflexivity.
    rewrite (all_ok_map_forallb _ json_ascii _ _ E)
      by (intros y o Hy Ho; exact (IH y Hy _ _ Ho)).
    cbn. destruct (json_ascii x && forallb json_ascii l'); reflexivity.
  - destruct kvs as [|kv kvs']; [injection H as <-; reflexivity|].
    cbn [Json.encode] in H. rewrite map_map in H.
    destruct (Json.all_ok _) as [items|ex] eqn:E; cbn in H; [|discriminate H].
    injection H as <-. rewrite Forall_forall in IH.
    cbn [all_ascii]. rewrite all_ascii_app, all_ascii_join_py by reflexivity.
    rewrite (all_ok_map_forallb _ (fun kv => json_ascii (fst kv) && json_ascii (snd kv)) _ _ E).
    { cbn. destruct (json_ascii (fst kv) && json_ascii (snd kv)
                     && forallb (fun kv => json_ascii (fst kv) && json_ascii (snd kv)) kvs');
        reflexivity. }
    intros kv0 o Hkv Ho. cbn in Ho.
    destruct (Json.key_str (fst kv0)) as [k|ex] eqn:Ek; cbn in Ho; [|discriminate Ho].
    destruct (Json.encode false None (S lvl) (snd kv0)) as [x|ex] eqn:Ex; cbn in Ho;
      [|discriminate Ho].
    injection Ho as <-. cbn [all_ascii]. rewrite !all_ascii_app. cbn [all_ascii].
    rewrite all_ascii_escape, (key_str_ascii _ _ Ek), (IH kv0 Hkv _ _ Ex).
    cbn. destruct (json_ascii (fst kv0)), (json_ascii (snd kv0)); reflexivity.
  - discriminate H.
  - discriminate H.
Qed.

Lemma ascii_decode_ok_iff : forall s, (exists o, ascii_decode s = Ok o) <-> all_ascii s = true.
Proof.
  intro s. split; [|intro H; rewrite (ascii_decode_ok s H); eauto].
  intros [o H]. unfold ascii_decode in H.
  destruct (first_non_ascii 0 s) eqn:E; [discriminate H|].
  clear H. revert E. generalize 0. induction s as [|c s IH]; intros i E; [reflexivity|].
  cbn [first_non_ascii all_ascii] in E |- *.
  destruct (is_ascii_byte c); [exact (IH _ E) | discriminate E].
Qed.

(** X14.  [JsonResource._format_response] (with the default encoding
    'utf-8') succeeds exactly on values built from [None], booleans,
    integers, finite floats and strings by lists, tuples and dicts whose
    keys are strings, numbers, booleans or [None], and whose strings, keys
    included, are all ASCII; a NaN or an infinity anywhere (as
    [allow_nan=False] demands), an element, an object or another key makes
    it raise, and so does a byte above 0x7f in any string
    ([UnicodeDecodeError] from [.encode('utf-8')] on the [str] result). *)
Theorem json_format_response_ok_iff : forall v,
  (exists out, json_format_response v = Ok out)
  <-> json_ok v = true /\ json_ascii v = true.
Proof.
  intro v; unfold json_format_response, Json.dumps.
  destruct (Json.encode false None 0 v) as [o|ex] eqn:E; cbn.
  - rewrite ascii_decode_ok_iff, (encode_ascii v 0 o E).
    assert (Hok : json_ok v = true) by (apply (encode_ok_iff v 0); eauto).
    rewrite Hok. tauto.
  - split; [intros [? H]; discriminate H|].
    intros [Hok _]. apply (encode_ok_iff v 0) in Hok. destruct Hok as [o Ho].
    rewrite Ho in E. discriminate E.
Qed.

Lemma str_app_assoc : forall a b c : string, (a ++ b) ++ c = a ++ b ++ c.
Proof. induction a as [|x a IH]; intros b c; simpl; [reflexivity|rewrite IH; reflexivity]. Qed.

(** X10.  For an ASCII [brief] and [detail], [JsonErrorPage.render] sets
    the status to the page's code and returns the JSON object with the keys
    in sorted order ([code], [detail], [error]), indented by four spaces,
    where [detail] is the escaped detail string when the site displays
    tracebacks and [null] otherwise. *)
Theorem json_error_page_body : forall rq ep s,
  all_ascii (ep_brief ep) = true -> all_ascii (ep_detail ep) = true ->
  fst (JsonErrorPage_render rq ep s)
    = Ok ("{" ++ NL ++ "    " ++ QUOTE ++ "code" ++ QUOTE ++ ": " ++ z_repr (ep_code ep)
          ++ ", " ++ NL ++ "    " ++ QUOTE ++ "detail" ++ QUOTE ++ ": "
          ++ (if rq_displayTracebacks rq then Json.encode_basestring (ep_detail ep)
              else "null")
          ++ ", " ++ NL ++ "    " ++ QUOTE ++ "error" ++ QUOTE ++ ": "
          ++ Json.encode_basestring (ep_brief ep) ++ NL ++ "}")
  /\ st_code (snd (JsonErrorPage_render rq ep s)) = ep_code ep.
Proof.
  intros rq ep s Hb Hd. unfold JsonErrorPage_render.
  cbv [bind lift ret gets modify setResponseCode setHeader].
  rewrite (ascii_decode_ok _ Hb), (ascii_decode_ok _ Hd).
  destruct (ep_log ep); rewrite ?(ascii_decode_ok _ Hb), ?(ascii_decode_ok _ Hd);
  destruct (rq_displayTracebacks rq); cbv [fst snd];
  unfold Json.dumps, json_error_doc;
  cbn -[z_repr Json.encode_basestring append];
  rewrite !str_app_assoc; split; reflexivity.
Qed.

(** X17.  [FormEncodedPost._format_post] raises [TypeError] when the
    request has no Content-Type header; it returns [request.args], without
    looking at the body, when the Content-Type is exactly
    [application/x-www-form-urlencoded] or contains [multipart/form-data];
    for any other Content-Type it is the parent codec's [_format_post]. *)
Theorem FormEncodedPost_dispatch : forall e f args body,
  FormEncodedPost_format_post e f None args body
    = Raise (TypeError "argument of type 'NoneType' is not iterable")
  /\ (forall c, c = WWW_FORM \/ str_in FORM_DATA c = true ->
       FormEncodedPost_format_post e f (Some c) args body = Ok args)
  /\ (forall c, c <> WWW_FORM -> str_in FORM_DATA c = false ->
       FormEncodedPost_format_post e f (Some c) args body = format_post e f body).
Proof.
  intros e f args body; unfold FormEncodedPost_format_post.
  split; [reflexivity|]. split.
  - intros c [->|H]; [reflexivity|].
    destruct (String.eqb c WWW_FORM); cbn; [reflexivity|rewrite H; reflexivity].
  - intros c Hne Hin. apply String.eqb_neq in Hne. rewrite Hne. cbn. rewrite Hin.
    reflexivity.
Qed.


(* ------------------------------------------------------------------------- *)
(** ** Witnesses of the further properties *)


Definition res_data_get : rest_resource := mkJsonRes [("rest_GET", AData (PInt 1))].

Lemma render_not_callable_500_witness :
  attr_truthy (resolved_method res_data_get (rq_method (GET false))) = true
  /\ attr_callable (resolved_method res_data_get (rq_method (GET false))) = false
  /\ (let res := render env1 res_data_get (GET false) init_state in
      st_calls (snd res) = st_calls init_state
      /\ st_written (snd res) = st_written init_state
      /\ st_finished (snd res) = st_finished init_state
      /\ match fst res with
         | Ok (Body _) => st_code (snd res) = INTERNAL_SERVER_ERROR
         | Ok NOT_DONE_YET => False
         | Raise _ => True
         end).
Proof.
  split; [vm_compute; reflexivity|]. split; [vm_compute; reflexivity|].
  apply render_not_callable_500; vm_compute; reflexivity.
Defined.

Lemma render_passes_decoded_witness :
  body_method (rq_method (POST "{}" false)) = true
  /\ resolved_method res_post (rq_method (POST "{}" false)) = Some (AFunc 0)
  /\ rq_content (POST "{}" false) = Ok "{}"
  /\ format_post env_post (res_format res_post) "{}" = Ok PNone
  /\ exists meth_name,
       render env_post res_post (POST "{}" false) init_state
       = (_ <- run_handler env_post res_post (POST "{}" false) meth_name 0 [PNone] ;;
          ret NOT_DONE_YET) (primed res_post meth_name init_state).
Proof.
  split; [reflexivity|]. split; [vm_compute; reflexivity|]. split; [reflexivity|].
  split; [vm_compute; reflexivity|].
  apply render_passes_decoded with (body := "{}"); [reflexivity | left; vm_compute; reflexivity
                                                   | reflexivity | vm_compute; reflexivity].
Defined.

Definition res_get_json : rest_resource := mkJsonRes [("rest_GET", AFunc 0)].

Lemma on_response_writes_serialized_witness :
  st_finished init_state = false /\ st_disconnected init_state = false
  /\ st_fake_head init_state = false
  /\ HANDLE_TYPES (res_format res_get_json) val_a1 = true
  /\ format_response env1 (res_format res_get_json) val_a1 (res_encoding res_get_json)
     = Ok body_a1
  /\ (let res := on_response env1 res_get_json (GET false) val_a1 init_state in
      fst res = Ok tt
      /\ st_written (snd res) = (st_written init_state ++ [body_a1])%list
      /\ st_finished (snd res) = true
      /\ st_finish_calls (snd res) = S (st_finish_calls init_state)
      /\ st_code (snd res) = st_code init_state
      /\ In ("content-length", nat_repr (String.length body_a1))
            (st_headers (snd res))).
Proof.
  do 4 (split; [reflexivity|]). split; [vm_compute; reflexivity|].
  apply on_response_writes_serialized; vm_compute; reflexivity.
Defined.

Definition val_nan : pyval := PList [PFloat FNaN].

Lemma on_response_error_page_500_witness :
  st_finished init_state = false /\ st_disconnected init_state = false
  /\ st_fake_head init_state = false
  /\ ((HANDLE_TYPES (res_format res_get_json) val_nan = true
       /\ exists ex, format_response env1 (res_format res_get_json) val_nan
                       (res_encoding res_get_json) = Raise ex)
      \/ (HANDLE_TYPES (res_format res_get_json) val_nan = false
          /\ is_resource env1 val_nan = false))
  /\ (let res := on_response env1 res_get_json (GET false) val_nan init_state in
      match fst res with
      | Ok _ => st_code (snd res) = INTERNAL_SERVER_ERROR /\ page_written init_state (snd res)
      | Raise _ => frame init_state (snd res)
      end).
Proof.
  assert (H : (HANDLE_TYPES (res_format res_get_json) val_nan = true
               /\ exists ex, format_response env1 (res_format res_get_json) val_nan
                               (res_encoding res_get_json) = Raise ex)
              \/ (HANDLE_TYPES (res_format res_get_json) val_nan = false
                  /\ is_resource env1 val_nan = false))
    by (left; split; [reflexivity | eexists; vm_compute; reflexivity]).
  do 3 (split; [reflexivity|]). split; [exact H|].
  apply on_response_error_page_500; [reflexivity | reflexivity | reflexivity | exact H].
Defined.

Lemma on_failure_error_page_500_witness :
  st_finished init_state = false /\ st_disconnected init_state = false
  /\ st_fake_head init_state = false
  /\ ValueError "boom" <> CancelledError
  /\ (let res := on_failure env1 res_get_json (GET false) (ValueError "boom") init_state in
      match fst res with
      | Ok _ => st_code (snd res) = INTERNAL_SERVER_ERROR /\ page_written init_state (snd res)
      | Raise _ => frame init_state (snd res)
      end).
Proof.
  assert (H : ValueError "boom" <> CancelledError) by discriminate.
  do 3 (split; [reflexivity|]). split; [exact H|].
  apply on_failure_error_page_500; [reflexivity | reflexivity | reflexivity | exact H].
Defined.

Lemma render_single_response_witness :
  st_disconnected init_state = false /\ st_fake_head init_state = false
  /\ (let res := render env1 res_get_json (GET false) init_state in
      match fst res with
      | Ok NOT_DONE_YET =>
          one_write init_state (snd res)
          /\ exists mn args, st_calls (snd res) = (st_calls init_state ++ [(mn, args)])%list
      | _ => frame init_state (snd res)
      end).
Proof.
  split; [reflexivity|]. split; [reflexivity|].
  apply render_single_response; reflexivity.
Defined.

Lemma connection_lost_outcome_witness :
  st_finished init_state = false
  /\ (let res := connection_lost env1 res_get_json (GET false) true init_state in
      fst res = Ok tt
      /\ st_disconnected (snd res) = true
      /\ st_written (snd res) = st_written init_state
      /\ st_finished (snd res) = false
      /\ st_code (snd res) = st_code init_state
      /\ st_headers (snd res) = st_headers init_state
      /\ st_finish_calls (snd res) = S (st_finish_calls init_state)).
Proof.
  split; [reflexivity|].
  apply (connection_lost_outcome env1 res_get_json (GET false) true init_state); reflexivity.
Defined.

(** "rest_caf\xc3\xa9" *)
Definition cafe : pystr := String "c" (String "a" (String "f"
  (String (ascii_of_nat 195) (String (ascii_of_nat 169) EmptyString)))).

Definition res_non_ascii : rest_resource :=
  mkJsonRes [("rest_GET", AFunc 0); ("rest_" ++ cafe, AFunc 1); ("rest_PUT", AFunc 2)].

Lemma allowed_methods_stop_at_non_ascii_witness :
  prefixedMethodNames res_non_ascii REST_METHOD_PREFIX = (["GET"] ++ cafe :: ["PUT"])%list
  /\ Forall (fun x => all_ascii x = true) ["GET"]
  /\ all_ascii cafe = false
  /\ _allowed_methods res_non_ascii = PStr "HEAD" :: map PStr ["GET"].
Proof.
  assert (H1 : prefixedMethodNames res_non_ascii REST_METHOD_PREFIX
               = (["GET"] ++ cafe :: ["PUT"])%list) by (vm_compute; reflexivity).
  assert (H2 : Forall (fun x => all_ascii x = true) ["GET"])
    by (constructor; [vm_compute; reflexivity | constructor]).
  assert (H3 : all_ascii cafe = false) by (vm_compute; reflexivity).
  split; [exact H1|]. split; [exact H2|]. split; [exact H3|].
  apply (allowed_methods_stop_at_non_ascii res_non_ascii ["GET"] cafe ["PUT"] H1 H2 H3).
Defined.

Definition known_encoding (enc : pystr) : bool :=
  existsb (String.eqb enc) ["utf-8"; "ascii"; "latin-1"].

Definition has_no_error_class (a : pystr) : bool := negb (String.eqb a "ERROR_CLASS").

Lemma RestResource_init_outcome_witness :
  known_encoding "utf-8" = true
  /\ (exists a, In a SUBCLASS_ATTRS /\ has_no_error_class a = false)
  /\ RestResource_init known_encoding has_no_error_class "utf-8"
     = Raise (TypeError "not enough arguments for format string").
Proof.
  assert (Hk : known_encoding "utf-8" = true) by reflexivity.
  assert (Ha : exists a, In a SUBCLASS_ATTRS /\ has_no_error_class a = false)
    by (exists "ERROR_CLASS"; split; [vm_compute; tauto | reflexivity]).
  split; [exact Hk|]. split; [exact Ha|].
  destruct (RestResource_init_outcome known_encoding has_no_error_class "utf-8")
    as [_ [H2 _]].
  apply (H2 Hk Ha).
Defined.

Definition page_ascii : error_page :=
  mkErrorPage JsonErrorPage 404 "Not Found" "no such item" false.

Lemma json_error_page_body_witness :
  all_ascii (ep_brief page_ascii) = true /\ all_ascii (ep_detail page_ascii) = true
  /\ fst (JsonErrorPage_render (GET true) page_ascii init_state)
     = Ok ("{" ++ NL ++ "    " ++ QUOTE ++ "code" ++ QUOTE ++ ": " ++ z_repr (ep_code page_ascii)
           ++ ", " ++ NL ++ "    " ++ QUOTE ++ "detail" ++ QUOTE ++ ": "
           ++ (if rq_displayTracebacks (GET true)
               then Json.encode_basestring (ep_detail page_ascii) else "null")
           ++ ", " ++ NL ++ "    " ++ QUOTE ++ "error" ++ QUOTE ++ ": "
           ++ Json.encode_basestring (ep_brief page_ascii) ++ NL ++ "}")
  /\ st_code (snd (JsonErrorPage_render (GET true) page_ascii init_state)) = ep_code page_ascii.
Proof.
  split; [vm_compute; reflexivity|]. split; [vm_compute; reflexivity|].
  apply json_error_page_body; vm_compute; reflexivity.
Defined.

Definition page_non_ascii : error_page :=
  mkErrorPage JsonErrorPage 500 "Resource Error" ("caf" ++ String (ascii_of_nat 195) EmptyString)
    false.

Lemma json_error_page_non_ascii_witness :
  (first_non_ascii 0 (ep_brief page_non_ascii) = Some 3
   \/ (all_ascii (ep_brief page_non_ascii) = true
       /\ first_non_ascii 0 (ep_detail page_non_ascii) = Some 3))
  /\ JsonErrorPage_render (GET false) page_non_ascii init_state
     = (Raise (UnicodeDecodeError 3), init_state).
Proof.
  assert (H : first_non_ascii 0 (ep_brief page_non_ascii) = Some 3
              \/ (all_ascii (ep_brief page_non_ascii) = true
                  /\ first_non_ascii 0 (ep_detail page_non_ascii) = Some 3))
    by (right; split; vm_compute; reflexivity).
  split; [exact H|]. apply json_error_page_non_ascii; exact H.
Defined.

Definition xml_page : error_page :=
  mkErrorPage XmlErrorPage 500 "Resource Error" "trace" false.

Lemma xml_error_page_outcome_witness :
  ep_log xml_page = false
  /\ Lxml.text_ok (ep_brief xml_page) = true
  /\ (rq_displayTracebacks (GET true) = true -> Lxml.text_ok (ep_detail xml_page) = true)
  /\ fst (XmlErrorPage_render (GET true) xml_page init_state)
     = Ok (Lxml.tostring_pretty
             (xml_error_tree (Some (z_repr (ep_code xml_page))) (Some (ep_brief xml_page))
                (if rq_displayTracebacks (GET true) then Some (ep_detail xml_page) else None)))
  /\ st_code (snd (XmlErrorPage_render (GET true) xml_page init_state)) = ep_code xml_page.
Proof.
  assert (Hb : Lxml.text_ok (ep_brief xml_page) = true) by (vm_compute; reflexivity).
  assert (Hd : rq_displayTracebacks (GET true) = true ->
               Lxml.text_ok (ep_detail xml_page) = true) by (intros _; vm_compute; reflexivity).
  split; [reflexivity|]. split; [exact Hb|]. split; [exact Hd|].
  destruct (xml_error_page_outcome (GET true) xml_page init_state eq_refl) as [H1 _].
  apply (H1 Hb Hd).
Defined.

Lemma error_pages_hide_detail_without_log_witness :
  rq_displayTracebacks (GET false) = false /\ ep_log xml_page = false
  /\ fst (ErrorPage_render (GET false) xml_page init_state)
     = Ok (Lxml.tostring_pretty (xml_error_tree (Some "500") (Some "Resource Error") None))
  /\ Lxml.tostring_pretty (xml_error_tree (Some "500") (Some "Resource Error") None)
     = Lxml.tostring_pretty
         (xml_error_tree (Some (z_repr (ep_code xml_page))) (Some (ep_brief xml_page)) None).
Proof.
  assert (H : fst (ErrorPage_render (GET false) xml_page init_state)
              = Ok (Lxml.tostring_pretty (xml_error_tree (Some "500") (Some "Resource Error") None)))
    by (vm_compute; reflexivity).
  split; [reflexivity|]. split; [reflexivity|]. split; [exact H|].
  apply (error_pages_hide_detail_without_log (GET false) xml_page init_state _
           eq_refl eq_refl H).
Defined.

Definition dict_e_acute : pyval := PDict [(PStr "a", PStr body_e_acute)].

Lemma json_format_response_ok_iff_witness :
  json_ok dict_e_acute = true /\ json_ascii dict_e_acute = false
  /\ ~ (exists out, json_format_response dict_e_acute = Ok out).
Proof.
  split; [reflexivity|]. split; [reflexivity|].
  rewrite (json_format_response_ok_iff dict_e_acute).
  intros [_ H]. discriminate H.
Defined.

Lemma json_post_returns_parsed_value_witness :
  lstrip " {}" = String "{" "}" /\ ("{"%char = "{"%char \/ "{"%char = "["%char)
  /\ json_loads env_post " {}" = Ok PNone
  /\ json_format_post (json_loads env_post) " {}" = Ok PNone.
Proof.
  split; [reflexivity|]. split; [left; reflexivity|]. split; [reflexivity|].
  apply (json_post_returns_parsed_value (json_loads env_post) " {}" "{" "}" PNone);
    [reflexivity | left; reflexivity | reflexivity].
Defined.

Definition multipart : pystr := "multipart/form-data; boundary=xyz".
Definition form_args : pyval := PDict [(PStr "a", PList [PStr "1"])].

Lemma FormEncodedPost_dispatch_witness :
  str_in FORM_DATA multipart = true
  /\ FormEncodedPost_format_post env_post JsonFormat (Some multipart) form_args EmptyString
     = Ok form_args
  /\ (WWW_FORM ++ "; charset=UTF-8") <> WWW_FORM
  /\ str_in FORM_DATA (WWW_FORM ++ "; charset=UTF-8") = false
  /\ FormEncodedPost_format_post env_post JsonFormat (Some (WWW_FORM ++ "; charset=UTF-8"))
       form_args "a=1"
     = format_post env_post JsonFormat "a=1".
Proof.
  destruct (FormEncodedPost_dispatch env_post JsonFormat form_args EmptyString) as [_ [H2 _]].
  destruct (FormEncodedPost_dispatch env_post JsonFormat form_args "a=1") as [_ [_ H3]].
  assert (Hm : str_in FORM_DATA multipart = true) by (vm_compute; reflexivity).
  assert (Hne : (WWW_FORM ++ "; charset=UTF-8") <> WWW_FORM)
    by (apply String.eqb_neq; vm_compute; reflexivity).
  assert (Hn : str_in FORM_DATA (WWW_FORM ++ "; charset=UTF-8") = false)
    by (vm_compute; reflexivity).
  split; [exact Hm|]. split; [apply H2; right; exact Hm|].
  split; [exact Hne|]. split; [exact Hn|].
  apply (H3 _ Hne Hn).
Defined.



(** A mixin listing [_format_response] but defining only [_format_post]. *)
Definition broken_mixin : mixin_class :=
  mkMixin "Broken" ["_format_post"; "_format_response"]
    [("_format_post", AFunc 7)] [("setup", AFunc 8)].

Lemma mixin_missing_method_raises_witness :
  In "_format_response" (mx_methods broken_mixin)
  /\ assoc_attr (mx_dict broken_mixin) "_format_response" = None
  /\ exists ex impl', mixin broken_mixin res_get_json = (Raise ex, impl')
    /\ ((exists msg, ex = ValueError msg) \/ (exists msg, ex = OtherError "KeyError" msg)).
Proof.
  assert (H1 : In "_format_response" (mx_methods broken_mixin)) by (vm_compute; tauto).
  assert (H2 : assoc_attr (mx_dict broken_mixin) "_format_response" = None)
    by (vm_compute; reflexivity).
  split; [exact H1|]. split; [exact H2|].
  apply (mixin_missing_method_raises broken_mixin res_get_json _ H1 H2).
Defined.
